(** * Katzenpost wire KEM key layer (kem.go): shallow embedding and properties

    The Go file defines three structs, [publicKey], [privateKey] and
    [scheme], whose methods wrap an external KEM primitive (nyquist's
    [kem.KEM] interface), the PEM and base64 codecs, BLAKE2b and the
    file system.  Keys are heap objects reached through pointers and two
    methods mutate them in place, so the embedding threads an explicit
    memory holding the allocated key structs and the file system; a Go
    panic is a separate outcome of every computation. *)

From Stdlib.Strings Require Import String Ascii Byte.
From Stdlib Require Import NArith Lia DecimalString.
From stdpp Require Import base option list.

Local Open Scope string_scope.

(** ** Go values *)

(** [[]byte] *)
Definition bytes := list byte.

(** The [error] interface, by the dynamic type of the value.  [Errorf]
    is an error built in kem.go itself with [fmt.Errorf].  The others
    are the error values of the packages kem.go calls, which it hands on
    as it received them: [OsError] from os, [KemError] from the KEM
    primitive, [SeecError] from seec, each with its message, and
    [CorruptInputError], encoding/base64's error type (an input offset),
    the one error [DecodeString] returns. *)
Inductive error : Type :=
| Errorf (msg : string)
| OsError (msg : string)
| KemError (msg : string)
| SeecError (msg : string)
| CorruptInputError (offset : N).

(** What a panic carries: the error given to [panic(err)], or the
    run-time error of a method call through a nil pointer or interface.
    [BadAddress] has no counterpart in Go: it is the outcome of using an
    address the memory never allocated, which no Go program can hold. *)
Inductive panic_value : Type :=
| PanicError (e : error)
| NilDereference
| BadAddress.

(** Outcome of a Go call: it returns, or it panics. *)
Inductive result (A : Type) : Type :=
| Ret (a : A)
| Panic (v : panic_value).
Arguments Ret {A} a.
Arguments Panic {A} v.

(** [pem.Block], without the headers kem.go never sets or reads. *)
Record pemBlock := mkBlock { Type_ : string; Bytes_ : bytes }.

(** [PublicKeyHashSize] *)
Definition PublicKeyHashSize : nat := 32.

(** ** Upper-casing ASCII text, bytes.Equal

    What [strings.ToUpper] does to a string of ASCII bytes: the letters
    a-z move to A-Z and every other byte is kept.  On other strings
    [strings.ToUpper] works rune by rune on the UTF-8 decoding, which is
    not defined here: the function itself is a field of [Externals]
    below, and [ascii_ToUpper] describes it on ASCII text only. *)
Definition upper_ascii (c : ascii) : ascii :=
  let n := nat_of_ascii c in
  if (97 <=? n)%nat && (n <=? 122)%nat then ascii_of_nat (n - 32) else c.

Fixpoint ascii_ToUpper (s : string) : string :=
  match s with
  | EmptyString => EmptyString
  | String c s' => String (upper_ascii c) (ascii_ToUpper s')
  end.

(** Every byte of the string is below 128. *)
Fixpoint only_ascii (s : string) : bool :=
  match s with
  | EmptyString => true
  | String c s' => (nat_of_ascii c <? 128)%nat && only_ascii s'
  end.

Lemma upper_ascii_idemp c : upper_ascii (upper_ascii c) = upper_ascii c.
Proof.
  destruct c as [[] [] [] [] [] [] [] []]; reflexivity.
Qed.

Lemma ascii_ToUpper_idemp s : ascii_ToUpper (ascii_ToUpper s) = ascii_ToUpper s.
Proof.
  induction s as [|c s IH]; simpl; [reflexivity|].
  rewrite upper_ascii_idemp, IH. reflexivity.
Qed.

Lemma ascii_ToUpper_app s t :
  ascii_ToUpper (s ++ t) = ascii_ToUpper s ++ ascii_ToUpper t.
Proof. induction s as [|c s IH]; simpl; [reflexivity | rewrite IH; reflexivity]. Qed.

(** [bytes.Equal]: same length and same bytes. *)
Fixpoint bytes_Equal (a b : bytes) : bool :=
  match a, b with
  | [], [] => true
  | x :: a', y :: b' => Byte.eqb x y && bytes_Equal a' b'
  | _, _ => false
  end.

(** Modelled from the spec: [utils.CtIsZero] of core/utils, which is not
    among the sources.  The spec describes it as the guard that holds
    when the raw bytes are all zero. *)
Definition CtIsZero (b : bytes) : bool := forallb (Byte.eqb x00) b.

(** ** The external packages

    Everything kem.go imports from outside the repository, as one
    interface.  [Reader] is [io.Reader]; [FS] is the state of the file
    system seen by [os.ReadFile] and [os.WriteFile] (the latter returns
    the new file system and its error, nil when it is [None]).  A
    function that can fail returns its value or what its error carries:
    a message, or the offset of a [CorruptInputError].

    [ToUpper] is [strings.ToUpper], which maps every rune of the UTF-8
    decoding to its upper case.  Three facts about it are used: on ASCII
    text it is [ascii_ToUpper]; it goes through a concatenation whose
    second part is ASCII text, since an ASCII byte starts a rune of its
    own; and its result is upper case already, so a second pass changes
    nothing. *)
Class Externals := {
  Reader : Type;
  ToUpper : string -> string;
  ToUpper_on_ascii : forall t, only_ascii t = true -> ToUpper t = ascii_ToUpper t;
  ToUpper_app_ascii : forall s t, only_ascii t = true ->
    ToUpper (s ++ t) = ToUpper s ++ ToUpper t;
  ToUpper_twice : forall s, ToUpper (ToUpper s) = ToUpper s;
  FS : Type;
  os_ReadFile : FS -> string -> bytes + string;
  os_WriteFile : FS -> string -> bytes -> N -> FS * option string;
  pem_Decode : bytes -> option (pemBlock * bytes);
  pem_EncodeToMemory : pemBlock -> bytes;
  base64_StdEncoding_DecodeString : string -> bytes + N;
  blake2b_Sum256 : bytes -> bytes;
  blake2b_Sum256_size : forall b, length (blake2b_Sum256 b) = PublicKeyHashSize;
  seec_GenKeyPRPAES : Reader -> N -> Reader + string
}.

(** Go's [string(b)] conversion. *)
Definition string_of_bytes (b : bytes) : string := string_of_list_byte b.

(** File mode 0600 (octal): read and write for the owner only. *)
Definition mode_0600 : N := 6 * 8 * 8.

Section Kem.
Context `{Ext : Externals}.

(** ** nyquist's kem package

    The interface values of the KEM primitive are immutable objects; each
    is modelled by what its methods return.  [kem.PublicKey] has
    [Bytes()], [kem.Keypair] has [Public()] and [MarshalBinary()], and
    [kem.KEM] has [String()], [GenerateKeypair], [ParsePrivateKey] and
    [ParsePublicKey]. *)
Record kem_PublicKey := mkKemPublicKey { kem_PublicKey_Bytes : bytes }.

Record kem_Keypair := mkKemKeypair {
  kem_Keypair_Public : kem_PublicKey;
  kem_Keypair_MarshalBinary : bytes + string
}.

Record kem_KEM := mkKEM {
  KEM_String : string;
  KEM_GenerateKeypair : Reader -> kem_Keypair + string;
  KEM_ParsePrivateKey : bytes -> kem_Keypair + string;
  KEM_ParsePublicKey : bytes -> kem_PublicKey + string
}.

(** ** The structs of kem.go

    An interface-typed field may hold nil, which is [None]. *)
Record publicKey := mkPublicKey {
  pub_publicKey : option kem_PublicKey;
  pub_KEM : option kem_KEM;
  pub_hash : bytes
}.

Record privateKey := mkPrivateKey {
  priv_privateKey : option kem_Keypair;
  priv_KEM : option kem_KEM
}.

Record scheme := mkScheme { scheme_KEM : option kem_KEM }.

(** The zero value of [[PublicKeyHashSize]byte]. *)
Definition zero_hash : bytes := replicate PublicKeyHashSize x00.

(** ** Memory

    A pointer is nil or the address of an allocated struct.  The memory
    holds the allocated [publicKey] and [privateKey] structs, addressed by
    their position, and the file system. *)
Definition ptr := option nat.

Record mem := mkMem {
  pubs : list publicKey;
  privs : list privateKey;
  disk : FS
}.

(** A computation reads and updates the memory and returns or panics. *)
Definition M (A : Type) : Type := mem -> result (A * mem).

Definition ret {A} (a : A) : M A := fun m => Ret (a, m).

Definition bind {A B} (c : M A) (k : A -> M B) : M B :=
  fun m => match c m with
           | Ret (a, m') => k a m'
           | Panic v => Panic v
           end.

Definition panic {A} (v : panic_value) : M A := fun _ => Panic v.

End Kem.

Arguments M {Ext} A.

Notation "x <- c ;; k" := (bind c (fun x => k))
  (at level 20, c at level 99, k at level 200, only parsing).

Section Methods.
Context `{Ext : Externals}.

(** ** Memory and file-system primitives *)

Definition deref {A} (o : option A) : M A :=
  match o with
  | Some a => ret a
  | None => panic NilDereference
  end.

Definition load_pub (p : ptr) : M publicKey := fun m =>
  match p with
  | None => Panic NilDereference
  | Some a => match pubs m !! a with
              | Some o => Ret (o, m)
              | None => Panic BadAddress
              end
  end.

Definition load_priv (p : ptr) : M privateKey := fun m =>
  match p with
  | None => Panic NilDereference
  | Some a => match privs m !! a with
              | Some o => Ret (o, m)
              | None => Panic BadAddress
              end
  end.

(** [*p = o] for a pointer that was loaded before. *)
Definition store_pub (p : ptr) (o : publicKey) : M unit := fun m =>
  match p with
  | None => Panic NilDereference
  | Some a => Ret (tt, mkMem (<[a := o]> (pubs m)) (privs m) (disk m))
  end.

Definition store_priv (p : ptr) (o : privateKey) : M unit := fun m =>
  match p with
  | None => Panic NilDereference
  | Some a => Ret (tt, mkMem (pubs m) (<[a := o]> (privs m)) (disk m))
  end.

(** [&publicKey{...}] and [&privateKey{...}]: a new struct at a fresh
    address. *)
Definition alloc_pub (o : publicKey) : M ptr := fun m =>
  Ret (Some (length (pubs m)), mkMem (pubs m ++ [o]) (privs m) (disk m)).

Definition alloc_priv (o : privateKey) : M ptr := fun m =>
  Ret (Some (length (privs m)), mkMem (pubs m) (privs m ++ [o]) (disk m)).

Definition ReadFile (f : string) : M (bytes + error) := fun m =>
  Ret (match os_ReadFile (disk m) f with
       | inl buf => inl buf
       | inr msg => inr (OsError msg)
       end, m).

Definition WriteFile (f : string) (data : bytes) (perm : N) : M (option error) :=
  fun m => let '(d, e) := os_WriteFile (disk m) f data perm in
           Ret (OsError <$> e, mkMem (pubs m) (privs m) d).

(** The three error values kem.go builds with [fmt.Errorf]. *)
Definition err_decode (f : string) : error :=
  Errorf ("failed to decode PEM file " ++ f).

Definition err_wrong_type (actual expected : string) : error :=
  Errorf ("attempted to decode PEM file with wrong key type "
          ++ actual ++ " != " ++ expected).

Definition err_scrubbed : error :=
  Errorf "attempted to serialize scrubbed key".

(** ** Methods of [*publicKey] *)

Definition publicKey_KeyType (p : ptr) : M string :=
  o <- load_pub p ;;
  k <- deref (pub_KEM o) ;;
  ret (ToUpper (KEM_String k) ++ " PUBLIC KEY").

Definition publicKey_Bytes (p : ptr) : M bytes :=
  o <- load_pub p ;;
  k <- deref (pub_publicKey o) ;;
  ret (kem_PublicKey_Bytes k).

Definition publicKey_FromBytes (p : ptr) (b : bytes) : M (option error) :=
  o <- load_pub p ;;
  k <- deref (pub_KEM o) ;;
  match KEM_ParsePublicKey k b with
  | inr err => ret (Some (KemError err))
  | inl pk =>
      u <- store_pub p (mkPublicKey (Some pk) (pub_KEM o) (pub_hash o)) ;;
      ret None
  end.

Definition publicKey_FromPEMFile (p : ptr) (f : string) : M (option error) :=
  keyType <- publicKey_KeyType p ;;
  r <- ReadFile f ;;
  match r with
  | inr err => ret (Some err)
  | inl buf =>
      match pem_Decode buf with
      | None => ret (Some (err_decode f))
      | Some (blk, _) =>
          if negb (String.eqb (ToUpper (Type_ blk)) keyType)
          then ret (Some (err_wrong_type (Type_ blk) keyType))
          else publicKey_FromBytes p (Bytes_ blk)
      end
  end.

Definition publicKey_ToPEMFile (p : ptr) (f : string) : M (option error) :=
  keyType <- publicKey_KeyType p ;;
  b <- publicKey_Bytes p ;;
  if CtIsZero b then ret (Some err_scrubbed)
  else
    b' <- publicKey_Bytes p ;;
    WriteFile f (pem_EncodeToMemory (mkBlock keyType b')) mode_0600.

(** [p = nil] assigns the method's own copy of the receiver; the struct
    it pointed to is not written. *)
Definition publicKey_Reset (p : ptr) : M unit :=
  let p : ptr := None in
  ret tt.

(** The argument is a [PublicKey] interface value; [*publicKey] is its
    only implementation in the package. *)
Definition publicKey_Equal (p : ptr) (publicKey : ptr) : M bool :=
  a <- publicKey_Bytes publicKey ;;
  b <- publicKey_Bytes p ;;
  ret (bytes_Equal a b).

Definition publicKey_MarshalBinary (p : ptr) : M (bytes * option error) :=
  b <- publicKey_Bytes p ;;
  ret (b, None).

Definition publicKey_UnmarshalBinary (p : ptr) (data : bytes) : M (option error) :=
  publicKey_FromBytes p data.

Definition publicKey_Sum256 (p : ptr) : M bytes :=
  b <- publicKey_Bytes p ;;
  o <- load_pub p ;;
  u <- store_pub p (mkPublicKey (pub_publicKey o) (pub_KEM o) (blake2b_Sum256 b)) ;;
  o' <- load_pub p ;;
  ret (pub_hash o').

(** ** Methods of [*privateKey] *)

Definition privateKey_KeyType (p : ptr) : M string :=
  o <- load_priv p ;;
  k <- deref (priv_KEM o) ;;
  ret (ToUpper (KEM_String k) ++ " PRIVATE KEY").

Definition privateKey_Bytes (p : ptr) : M bytes :=
  o <- load_priv p ;;
  kp <- deref (priv_privateKey o) ;;
  match kem_Keypair_MarshalBinary kp with
  | inr err => panic (PanicError (KemError err))
  | inl key => ret key
  end.

Definition privateKey_FromBytes (p : ptr) (b : bytes) : M (option error) :=
  o <- load_priv p ;;
  k <- deref (priv_KEM o) ;;
  match KEM_ParsePrivateKey k b with
  | inr err => ret (Some (KemError err))
  | inl kp =>
      u <- store_priv p (mkPrivateKey (Some kp) (priv_KEM o)) ;;
      ret None
  end.

Definition privateKey_FromPEMFile (p : ptr) (f : string) : M (option error) :=
  keyType <- privateKey_KeyType p ;;
  r <- ReadFile f ;;
  match r with
  | inr err => ret (Some err)
  | inl buf =>
      match pem_Decode buf with
      | None => ret (Some (err_decode f))
      | Some (blk, _) =>
          if negb (String.eqb (ToUpper (Type_ blk)) keyType)
          then ret (Some (err_wrong_type (Type_ blk) keyType))
          else privateKey_FromBytes p (Bytes_ blk)
      end
  end.

Definition privateKey_ToPEMFile (p : ptr) (f : string) : M (option error) :=
  keyType <- privateKey_KeyType p ;;
  b <- privateKey_Bytes p ;;
  if CtIsZero b then ret (Some err_scrubbed)
  else
    b' <- privateKey_Bytes p ;;
    WriteFile f (pem_EncodeToMemory (mkBlock keyType b')) mode_0600.

(** As in [publicKey_Reset], only the local receiver is assigned. *)
Definition privateKey_Reset (p : ptr) : M unit :=
  let p : ptr := None in
  ret tt.

(** A new [publicKey] struct whose fields are filled in the order the
    composite literal lists them. *)
Definition privateKey_PublicKey (p : ptr) : M ptr :=
  o <- load_priv p ;;
  kp <- deref (priv_privateKey o) ;;
  let pk := kem_Keypair_Public kp in
  let h := blake2b_Sum256 (kem_PublicKey_Bytes (kem_Keypair_Public kp)) in
  alloc_pub (mkPublicKey (Some pk) (priv_KEM o) h).

Definition privateKey_MarshalBinary (p : ptr) : M (bytes * option error) :=
  b <- privateKey_Bytes p ;;
  ret (b, None).

Definition privateKey_UnmarshalBinary (p : ptr) (data : bytes) : M (option error) :=
  privateKey_FromBytes p data.

(** ** Methods of [*scheme]

    A scheme is never written after it is built, so the methods take the
    struct the receiver points to.  Each returns Go's pair of a key
    pointer and an error. *)

Definition scheme_PrivateKeyFromBytes (s : scheme) (b : bytes)
  : M (ptr * option error) :=
  k <- deref (scheme_KEM s) ;;
  match KEM_ParsePrivateKey k b with
  | inr err => ret (None, Some (KemError err))
  | inl privKey =>
      a <- alloc_priv (mkPrivateKey (Some privKey) (scheme_KEM s)) ;;
      ret (a, None)
  end.

Definition scheme_PublicKeyFromBytes (s : scheme) (b : bytes)
  : M (ptr * option error) :=
  k <- deref (scheme_KEM s) ;;
  match KEM_ParsePublicKey k b with
  | inr err => ret (None, Some (KemError err))
  | inl pubKey =>
      a <- alloc_pub (mkPublicKey (Some pubKey) (scheme_KEM s) zero_hash) ;;
      ret (a, None)
  end.

Definition scheme_PrivateKeyFromPemFile (s : scheme) (f : string)
  : M (ptr * option error) :=
  k <- deref (scheme_KEM s) ;;
  let keyType := ToUpper (KEM_String k) ++ " PRIVATE KEY" in
  r <- ReadFile f ;;
  match r with
  | inr err => ret (None, Some err)
  | inl buf =>
      match pem_Decode buf with
      | None => ret (None, Some (err_decode f))
      | Some (blk, _) =>
          if negb (String.eqb (ToUpper (Type_ blk)) keyType)
          then ret (None, Some (err_wrong_type (Type_ blk) keyType))
          else scheme_PrivateKeyFromBytes s (Bytes_ blk)
      end
  end.

Definition scheme_PublicKeyFromPemFile (s : scheme) (f : string)
  : M (ptr * option error) :=
  k <- deref (scheme_KEM s) ;;
  let keyType := ToUpper (KEM_String k) ++ " PUBLIC KEY" in
  r <- ReadFile f ;;
  match r with
  | inr err => ret (None, Some err)
  | inl buf =>
      match pem_Decode buf with
      | None => ret (None, Some (err_decode f))
      | Some (blk, _) =>
          if negb (String.eqb (ToUpper (Type_ blk)) keyType)
          then ret (None, Some (err_wrong_type (Type_ blk) keyType))
          else scheme_PublicKeyFromBytes s (Bytes_ blk)
      end
  end.

Definition scheme_UnmarshalTextPublicKey (s : scheme) (b : bytes)
  : M (ptr * option error) :=
  match base64_StdEncoding_DecodeString (string_of_bytes b) with
  | inr off => ret (None, Some (CorruptInputError off))
  | inl raw => scheme_PublicKeyFromBytes s raw
  end.

Definition scheme_UnmarshalTextPrivateKey (s : scheme) (b : bytes)
  : M (ptr * option error) :=
  match base64_StdEncoding_DecodeString (string_of_bytes b) with
  | inr off => ret (None, Some (CorruptInputError off))
  | inl raw => scheme_PrivateKeyFromBytes s raw
  end.

Definition scheme_UnmarshalBinaryPublicKey (s : scheme) (b : bytes)
  : M (ptr * option error) :=
  scheme_PublicKeyFromBytes s b.

Definition scheme_GenerateKeypair (s : scheme) (r : Reader) : M (ptr * ptr) :=
  match seec_GenKeyPRPAES r 256 with
  | inr err => panic (PanicError (SeecError err))
  | inl seecGenRand =>
      kem <- deref (scheme_KEM s) ;;
      match KEM_GenerateKeypair kem seecGenRand with
      | inr err => panic (PanicError (KemError err))
      | inl k =>
          privk <- alloc_priv (mkPrivateKey (Some k) (scheme_KEM s)) ;;
          pub <- privateKey_PublicKey privk ;;
          ret (privk, pub)
      end
  end.

End Methods.

(** ** What the KEM primitive is asked to guarantee

    kem.go cannot make a key survive [Bytes] followed by a parse on its
    own: that is a property of the primitive behind [kem.KEM].  A KEM
    round-trips when every public key and key pair it hands out (parsed
    or generated) is accepted again from its own serialization, with the
    same serialization. *)
Section KemLaws.
Context `{Ext : Externals}.

Definition kem_issues_public (k : kem_KEM) (pk : kem_PublicKey) : Prop :=
  (exists b, KEM_ParsePublicKey k b = inl pk)
  \/ (exists b kp, KEM_ParsePrivateKey k b = inl kp /\ kem_Keypair_Public kp = pk)
  \/ (exists r kp, KEM_GenerateKeypair k r = inl kp /\ kem_Keypair_Public kp = pk).

Definition kem_issues_keypair (k : kem_KEM) (kp : kem_Keypair) : Prop :=
  (exists b, KEM_ParsePrivateKey k b = inl kp)
  \/ (exists r, KEM_GenerateKeypair k r = inl kp).

Definition kem_roundtrips (k : kem_KEM) : Prop :=
  (forall pk, kem_issues_public k pk ->
     exists pk', KEM_ParsePublicKey k (kem_PublicKey_Bytes pk) = inl pk'
                 /\ kem_PublicKey_Bytes pk' = kem_PublicKey_Bytes pk)
  /\ (forall kp raw, kem_issues_keypair k kp ->
        kem_Keypair_MarshalBinary kp = inl raw ->
        exists kp', KEM_ParsePrivateKey k raw = inl kp'
                    /\ kem_Keypair_MarshalBinary kp' = inl raw).

End KemLaws.

(** ** A small instance to run the definitions on

    An upper-casing that treats every byte as ASCII, a file system that
    is a list of written files, a PEM codec that puts the type tag on the
    first line, a text decoder that rejects the character '!', a digest
    that pads or cuts its input to 32 bytes, and two KEMs with 2-byte
    public keys and 4-byte key pairs.  None of this
    stands for the real packages; it only gives the theorems below
    concrete inputs. *)
Module Sample.

Definition file := (string * (bytes * N))%type.

Fixpoint find_file (fs : list file) (f : string) : option bytes :=
  match fs with
  | [] => None
  | (g, (data, _)) :: fs' => if String.eqb f g then Some data else find_file fs' f
  end.

Definition read_file (fs : list file) (f : string) : bytes + string :=
  match find_file fs f with
  | Some data => inl data
  | None => inr ("open " ++ f ++ ": no such file or directory")
  end.

Definition write_file (fs : list file) (f : string) (data : bytes) (perm : N)
  : list file * option string :=
  ((f, (data, perm)) :: fs, None).

Definition newline : byte := x0a.

Definition encode (blk : pemBlock) : bytes :=
  (list_byte_of_string (Type_ blk) ++ newline :: Bytes_ blk)%list.

Fixpoint split_line (acc buf : bytes) : option (bytes * bytes) :=
  match buf with
  | [] => None
  | c :: buf' => if Byte.eqb c newline then Some (rev acc, buf')
                 else split_line (c :: acc) buf'
  end.

Definition decode (buf : bytes) : option (pemBlock * bytes) :=
  match split_line [] buf with
  | Some (t, b) => Some (mkBlock (string_of_list_byte t) b, [])
  | None => None
  end.

Fixpoint bang_offset (s : string) (i : N) : option N :=
  match s with
  | EmptyString => None
  | String c s' => if Ascii.eqb c "!"%char then Some i else bang_offset s' (N.succ i)
  end.

Definition text_decode (s : string) : bytes + N :=
  match bang_offset s 0 with
  | Some i => inr i
  | None => inl (list_byte_of_string s)
  end.

Definition digest (b : bytes) : bytes :=
  take PublicKeyHashSize (b ++ replicate PublicKeyHashSize x00)%list.

Lemma digest_size (b : bytes) : length (digest b) = PublicKeyHashSize.
Proof.
  unfold digest. rewrite length_take, length_app, length_replicate. lia.
Qed.

Definition seed (r : bytes) (bits : N) : bytes + string :=
  match r with
  | [] => inr "EOF"
  | _ => inl r
  end.

#[global] Instance externals : Externals := {|
  Reader := bytes;
  ToUpper := ascii_ToUpper;
  ToUpper_on_ascii := fun t _ => eq_refl;
  ToUpper_app_ascii := fun s t _ => ascii_ToUpper_app s t;
  ToUpper_twice := ascii_ToUpper_idemp;
  FS := list file;
  os_ReadFile := read_file;
  os_WriteFile := write_file;
  pem_Decode := decode;
  pem_EncodeToMemory := encode;
  base64_StdEncoding_DecodeString := text_decode;
  blake2b_Sum256 := digest;
  blake2b_Sum256_size := digest_size;
  seec_GenKeyPRPAES := seed
|}.

Definition keypair_of (raw : bytes) : kem_Keypair :=
  mkKemKeypair (mkKemPublicKey (take 2 raw)) (inl raw).

Definition parse_public (b : bytes) : kem_PublicKey + string :=
  if (length b =? 2)%nat then inl (mkKemPublicKey b)
  else inr "invalid public key size".

Definition parse_private (b : bytes) : kem_Keypair + string :=
  if (length b =? 4)%nat then inl (keypair_of b)
  else inr "invalid private key size".

Definition generate (r : bytes) : kem_Keypair + string :=
  if (4 <=? length r)%nat then inl (keypair_of (take 4 r))
  else inr "short read".

Definition kem_a : kem_KEM := mkKEM "Kem-a" generate parse_private parse_public.
Definition kem_b : kem_KEM := mkKEM "Kem-b" generate parse_private parse_public.

Definition scheme_a : scheme := mkScheme (Some kem_a).

Definition pk12 : kem_PublicKey := mkKemPublicKey [x01; x02].
Definition pk00 : kem_PublicKey := mkKemPublicKey [x00; x00].
Definition kp1234 : kem_Keypair := keypair_of [x01; x02; x03; x04].
Definition kp0000 : kem_Keypair := keypair_of [x00; x00; x00; x00].

(** A key pair whose serializer fails. *)
Definition kp_broken : kem_Keypair := mkKemKeypair pk12 (inr "marshal failed").

(** Two files: a public-key block of [kem_a], and a block of another
    algorithm. *)
Definition pub_pem : bytes := encode (mkBlock "KEM-A PUBLIC KEY" [x01; x02]).
Definition rsa_pem : bytes := encode (mkBlock "RSA PRIVATE KEY" [x01; x02]).

(** Three public keys (the first two with the same bytes under different
    KEMs, the third all zero), three private keys and the two files. *)
Definition m0 : mem :=
  mkMem [mkPublicKey (Some pk12) (Some kem_a) zero_hash;
         mkPublicKey (Some pk12) (Some kem_b) zero_hash;
         mkPublicKey (Some pk00) (Some kem_a) zero_hash]
        [mkPrivateKey (Some kp1234) (Some kem_a);
         mkPrivateKey (Some kp0000) (Some kem_a);
         mkPrivateKey (Some kp_broken) (Some kem_a)]
        [("pub.pem", (pub_pem, 384%N)); ("rsa.pem", (rsa_pem, 384%N))].

End Sample.

(** * Shapes of results, for the statements below *)

Section Shapes.
Context `{Ext : Externals}.

(** [m1] has every key struct of [m] at its address, unchanged, possibly
    followed by new ones, and the same file system. *)
Definition mem_extends (m m1 : mem) : Prop :=
  pubs m `prefix_of` pubs m1 /\ privs m `prefix_of` privs m1 /\ disk m1 = disk m.

(** A (key, error) pair as Go code expects it from a constructor of
    public keys: a nil error with a pointer to a struct that did not
    exist before and holds a parsed key and the scheme's KEM, or an error
    with a nil pointer and the memory untouched. *)
Definition public_or_error (s : scheme) (m m1 : mem) (r : ptr * option error) : Prop :=
  (exists a pk, r = (Some a, None) /\ pubs m !! a = None
                /\ pubs m1 !! a = Some (mkPublicKey (Some pk) (scheme_KEM s) zero_hash))
  \/ (exists e, r = (None, Some e) /\ m1 = m).

Definition private_or_error (s : scheme) (m m1 : mem) (r : ptr * option error) : Prop :=
  (exists a kp, r = (Some a, None) /\ privs m !! a = None
                /\ privs m1 !! a = Some (mkPrivateKey (Some kp) (scheme_KEM s)))
  \/ (exists e, r = (None, Some e) /\ m1 = m).

(** Between [m] and [m'] nothing changed but, at most, the public key
    struct [p] points to (resp. the private key struct). *)
Definition only_public_written (p : ptr) (m m' : mem) : Prop :=
  disk m' = disk m /\ privs m' = privs m
  /\ length (pubs m') = length (pubs m)
  /\ forall a, p <> Some a -> pubs m' !! a = pubs m !! a.

Definition only_private_written (p : ptr) (m m' : mem) : Prop :=
  disk m' = disk m /\ pubs m' = pubs m
  /\ length (privs m') = length (privs m)
  /\ forall a, p <> Some a -> privs m' !! a = privs m !! a.

End Shapes.

(** * The Reunion HTTP handler (main.go)

    [httpReunionServerFactory] closes over a [*server.Server] and a
    logger and returns the handler of one request.  The packages it
    calls are one interface: [Body] is the request body and
    [ioutil_ReadAll] what [ioutil.ReadAll] returns on it; [Server] is the
    state behind the [*server.Server], which [ProcessQuery] may change;
    [ResponseWriter] is the state of the [http.ResponseWriter], which
    [Write] changes.  An error is given by its [Error()] text. *)
Class Reunion := {
  Body : Type;
  Command : Type;
  Server : Type;
  ResponseWriter : Type;
  ioutil_ReadAll : Body -> bytes + string;
  commands_FromBytes : bytes -> Command + string;
  Server_ProcessQuery : Server -> Command -> (Command + string) * Server;
  Command_ToBytes : Command -> bytes;
  ResponseWriter_Write : ResponseWriter -> bytes -> ResponseWriter * option string
}.

(** A call of the logger, by the method called and the formatted text. *)
Inductive log_entry : Type :=
| LogError (msg : string)
| LogDebug (msg : string).

(** [%d] of a length. *)
Definition format_d (n : nat) : string := NilZero.string_of_uint (Nat.to_uint n).

Section Handler.
Context `{Re : Reunion}.

(** What one run of the handler leaves: the server, the response writer
    and the logger calls made so far. *)
Record handled := mkHandled {
  h_server : Server;
  h_writer : ResponseWriter;
  h_log : list log_entry
}.

Definition httpReunionServerFactory (s : Server) (log : list log_entry)
    (w : ResponseWriter) (req : Body) : handled :=
  match ioutil_ReadAll req with
  | inr err =>
      mkHandled s w
        (log ++ [LogError ("reunion HTTP server failed to ReadAll raw command data: "
                           ++ err)])
  | inl rawRequest =>
      let log := (log ++ [LogDebug ("raw request size is "
                                    ++ format_d (length rawRequest))])%list in
      if (length rawRequest =? 0)%nat then
        mkHandled s w
          (log ++ [LogError "error read zero sized request body from client"])
      else
        match commands_FromBytes rawRequest with
        | inr err =>
            mkHandled s w
              (log ++ [LogError ("1 reunion HTTP server invalid query command: " ++ err)])
        | inl cmd =>
            let '(r, s') := Server_ProcessQuery s cmd in
            match r with
            | inr err =>
                mkHandled s' w
                  (log ++ [LogError ("reunion HTTP server invalid reply command: "
                                     ++ err)])
            | inl replyCmd =>
                let rawReply := Command_ToBytes replyCmd in
                let '(w', e) := ResponseWriter_Write w rawReply in
                match e with
                | Some err =>
                    mkHandled s' w'
                      (log ++ [LogError
                                 ("reunion HTTP server failure to send reply command: "
                                  ++ err)])
                | None => mkHandled s' w' log
                end
            end
        end
  end.

Definition is_error (e : log_entry) : bool :=
  match e with
  | LogError _ => true
  | LogDebug _ => false
  end.

End Handler.

(** A second small instance, for the handler: commands are byte strings
    that do not start with a zero byte, the server counts the queries it
    saw and answers a query of at most three bytes with its reverse, and
    the response writer accepts one write. *)
Module SampleHttp.

Definition read_all (req : option bytes) : bytes + string :=
  match req with
  | Some b => inl b
  | None => inr "unexpected EOF"
  end.

Definition from_bytes (b : bytes) : bytes + string :=
  match b with
  | x00 :: _ => inr "invalid command"
  | _ => inl b
  end.

Definition process (s : nat) (c : bytes) : (bytes + string) * nat :=
  if (length c <=? 3)%nat then (inl (rev c), S s) else (inr "query too long", S s).

Definition write (w : list bytes) (b : bytes) : list bytes * option string :=
  match w with
  | [] => ([b], None)
  | _ => (w, Some "connection closed")
  end.

#[global] Instance reunion : Reunion := {|
  Body := option bytes;
  Command := bytes;
  Server := nat;
  ResponseWriter := list bytes;
  ioutil_ReadAll := read_all;
  commands_FromBytes := from_bytes;
  Server_ProcessQuery := process;
  Command_ToBytes := fun c => c;
  ResponseWriter_Write := write
|}.

End SampleHttp.

(** A memory for the key layer with three more public keys: one never
    filled, one never filled and without a KEM, and one whose bytes are
    those of the first key of [Sample.m0]; a private key never filled;
    and three more files: one without a block and two whose tags are in
    lower case. *)
Module SampleKeys.

Definition junk_pem : bytes := [x6a; x75; x6e; x6b].
Definition lower_pub_pem : bytes :=
  Sample.encode (mkBlock "kem-a public key" [x05; x06]).
Definition lower_priv_pem : bytes :=
  Sample.encode (mkBlock "Kem-A Private Key" [x05; x06; x07; x08]).

Definition m1 : mem :=
  mkMem (pubs Sample.m0 ++
           [mkPublicKey None (Some Sample.kem_a) zero_hash;
            mkPublicKey None None zero_hash;
            mkPublicKey (Some Sample.pk12) (Some Sample.kem_a) zero_hash])
        (privs Sample.m0 ++ [mkPrivateKey None (Some Sample.kem_a)])
        (("junk.pem", (junk_pem, 384%N))
           :: ("lower-pub.pem", (lower_pub_pem, 384%N))
           :: ("lower-priv.pem", (lower_priv_pem, 384%N))
           :: disk Sample.m0).

End SampleKeys.

(** * Properties *)

Section Properties.
Context `{Ext : Externals}.

(** ** Equations of the primitives *)

Lemma bind_Ret {A B} (c : M A) (k : A -> M B) m a m' :
  c m = Ret (a, m') -> bind c k m = k a m'.
Proof. unfold bind. intros ->. reflexivity. Qed.

Lemma load_pub_Some a o m :
  pubs m !! a = Some o -> load_pub (Some a) m = Ret (o, m).
Proof. unfold load_pub. intros ->. reflexivity. Qed.

Lemma load_priv_Some a o m :
  privs m !! a = Some o -> load_priv (Some a) m = Ret (o, m).
Proof. unfold load_priv. intros ->. reflexivity. Qed.

(** ** Reading a key never writes *)

Lemma publicKey_Bytes_Some a pk k h m :
  pubs m !! a = Some (mkPublicKey (Some pk) k h) ->
  publicKey_Bytes (Some a) m = Ret (kem_PublicKey_Bytes pk, m).
Proof.
  intros H. unfold publicKey_Bytes.
  rewrite (bind_Ret _ _ _ _ _ (load_pub_Some _ _ _ H)). reflexivity.
Qed.

Lemma publicKey_KeyType_Some a pk k h m :
  pubs m !! a = Some (mkPublicKey pk (Some k) h) ->
  publicKey_KeyType (Some a) m = Ret (ToUpper (KEM_String k) ++ " PUBLIC KEY", m).
Proof.
  intros H. unfold publicKey_KeyType.
  rewrite (bind_Ret _ _ _ _ _ (load_pub_Some _ _ _ H)). reflexivity.
Qed.

Lemma privateKey_KeyType_Some a kp k m :
  privs m !! a = Some (mkPrivateKey kp (Some k)) ->
  privateKey_KeyType (Some a) m = Ret (ToUpper (KEM_String k) ++ " PRIVATE KEY", m).
Proof.
  intros H. unfold privateKey_KeyType.
  rewrite (bind_Ret _ _ _ _ _ (load_priv_Some _ _ _ H)). reflexivity.
Qed.

Lemma privateKey_Bytes_Some a kp k m :
  privs m !! a = Some (mkPrivateKey (Some kp) k) ->
  privateKey_Bytes (Some a) m =
    match kem_Keypair_MarshalBinary kp with
    | inl key => Ret (key, m)
    | inr err => Panic (PanicError (KemError err))
    end.
Proof.
  intros H. unfold privateKey_Bytes.
  rewrite (bind_Ret _ _ _ _ _ (load_priv_Some _ _ _ H)).
  cbv [bind ret deref panic priv_privateKey].
  destruct (kem_Keypair_MarshalBinary kp); reflexivity.
Qed.

Lemma publicKey_Bytes_inv p b m m' :
  publicKey_Bytes p m = Ret (b, m') ->
  m' = m /\ exists a pk k h,
    p = Some a /\ pubs m !! a = Some (mkPublicKey (Some pk) k h)
    /\ b = kem_PublicKey_Bytes pk.
Proof.
  unfold publicKey_Bytes, bind, load_pub, deref, ret, panic.
  destruct p as [a|]; [|discriminate].
  destruct (pubs m !! a) as [[[pk|] k h]|] eqn:E; try discriminate.
  intros [= <- <-]. split; [reflexivity|]. eauto 10.
Qed.

(** ** Reset *)

Lemma publicKey_Reset_keeps p m : publicKey_Reset p m = Ret (tt, m).
Proof. reflexivity. Qed.

Lemma privateKey_Reset_keeps p m : privateKey_Reset p m = Ret (tt, m).
Proof. reflexivity. Qed.

(** ** The zero guard *)

Lemma CtIsZero_spec b : CtIsZero b = true <-> Forall (eq x00) b.
Proof.
  unfold CtIsZero. rewrite forallb_forall, Forall_forall.
  split; intros H x Hx.
  - apply list_elem_of_In in Hx. apply Byte.byte_dec_bl. auto.
  - apply Byte.byte_dec_lb. apply H. apply list_elem_of_In. exact Hx.
Qed.

Lemma publicKey_ToPEMFile_Some a pk k h f m :
  pubs m !! a = Some (mkPublicKey (Some pk) (Some k) h) ->
  publicKey_ToPEMFile (Some a) f m =
    if CtIsZero (kem_PublicKey_Bytes pk) then Ret (Some err_scrubbed, m)
    else WriteFile f (pem_EncodeToMemory
                        (mkBlock (ToUpper (KEM_String k) ++ " PUBLIC KEY")
                                 (kem_PublicKey_Bytes pk))) mode_0600 m.
Proof.
  intros H. unfold publicKey_ToPEMFile.
  rewrite (bind_Ret _ _ _ _ _ (publicKey_KeyType_Some _ _ _ _ _ H)).
  rewrite (bind_Ret _ _ _ _ _ (publicKey_Bytes_Some _ _ _ _ _ H)).
  destruct (CtIsZero _); [reflexivity|].
  rewrite (bind_Ret _ _ _ _ _ (publicKey_Bytes_Some _ _ _ _ _ H)). reflexivity.
Qed.

Lemma privateKey_ToPEMFile_Some a kp k raw f m :
  privs m !! a = Some (mkPrivateKey (Some kp) (Some k)) ->
  kem_Keypair_MarshalBinary kp = inl raw ->
  privateKey_ToPEMFile (Some a) f m =
    if CtIsZero raw then Ret (Some err_scrubbed, m)
    else WriteFile f (pem_EncodeToMemory
                        (mkBlock (ToUpper (KEM_String k) ++ " PRIVATE KEY") raw))
                   mode_0600 m.
Proof.
  intros H Hraw. unfold privateKey_ToPEMFile.
  rewrite (bind_Ret _ _ _ _ _ (privateKey_KeyType_Some _ _ _ _ H)).
  assert (HB : privateKey_Bytes (Some a) m = Ret (raw, m)).
  { rewrite (privateKey_Bytes_Some _ _ _ _ H), Hraw. reflexivity. }
  rewrite (bind_Ret _ _ _ _ _ HB).
  destruct (CtIsZero raw); [reflexivity|].
  rewrite (bind_Ret _ _ _ _ _ HB). reflexivity.
Qed.

Lemma WriteFile_not_scrubbed f data perm m m' :
  WriteFile f data perm m <> Ret (Some err_scrubbed, m').
Proof.
  unfold WriteFile. destruct (os_WriteFile (disk m) f data perm) as [d [e|]];
    simpl; intros [=].
Qed.

(** ** Claims about Reset and the zero guard *)

(** C1, as the code behaves: [Reset] leaves the key struct as it was, so
    for a public or private key whose raw bytes are not all zero,
    [ToPEMFile] after [Reset] on that key still encodes the bytes and
    writes the file; it does not fail with the scrubbed-key error. *)
Theorem Reset_then_ToPEMFile_still_writes :
  (forall a pk k h f m,
     pubs m !! a = Some (mkPublicKey (Some pk) (Some k) h) ->
     CtIsZero (kem_PublicKey_Bytes pk) = false ->
     (u <- publicKey_Reset (Some a) ;; publicKey_ToPEMFile (Some a) f) m
       = WriteFile f (pem_EncodeToMemory
                        (mkBlock (ToUpper (KEM_String k) ++ " PUBLIC KEY")
                                 (kem_PublicKey_Bytes pk))) mode_0600 m
     /\ forall m', (u <- publicKey_Reset (Some a) ;; publicKey_ToPEMFile (Some a) f) m
                   <> Ret (Some err_scrubbed, m'))
  /\ (forall a kp k raw f m,
        privs m !! a = Some (mkPrivateKey (Some kp) (Some k)) ->
        kem_Keypair_MarshalBinary kp = inl raw ->
        CtIsZero raw = false ->
        (u <- privateKey_Reset (Some a) ;; privateKey_ToPEMFile (Some a) f) m
          = WriteFile f (pem_EncodeToMemory
                           (mkBlock (ToUpper (KEM_String k) ++ " PRIVATE KEY") raw))
                      mode_0600 m
        /\ forall m', (u <- privateKey_Reset (Some a) ;; privateKey_ToPEMFile (Some a) f) m
                      <> Ret (Some err_scrubbed, m')).
Proof.
  split.
  - intros a pk k h f m H Hz.
    rewrite (bind_Ret _ _ _ _ _ (publicKey_Reset_keeps _ _)).
    rewrite (publicKey_ToPEMFile_Some _ _ _ _ _ _ H), Hz.
    split; [reflexivity | intros m'; apply WriteFile_not_scrubbed].
  - intros a kp k raw f m H Hraw Hz.
    rewrite (bind_Ret _ _ _ _ _ (privateKey_Reset_keeps _ _)).
    rewrite (privateKey_ToPEMFile_Some _ _ _ _ _ _ H Hraw), Hz.
    split; [reflexivity | intros m'; apply WriteFile_not_scrubbed].
Qed.

(** C3: for a key whose raw bytes are all zero, [ToPEMFile] returns the
    scrubbed-key error and the memory, file system included, is as
    before; for a key whose raw bytes are not all zero, it is the one
    call of [os.WriteFile] on the PEM encoding of the block with the
    canonical type tag and the raw bytes, with mode 0600.  Both for a
    public and for a private key. *)
Theorem ToPEMFile_zero_guard :
  (forall a pk k h f m,
     pubs m !! a = Some (mkPublicKey (Some pk) (Some k) h) ->
     (Forall (eq x00) (kem_PublicKey_Bytes pk) ->
        publicKey_ToPEMFile (Some a) f m = Ret (Some err_scrubbed, m))
     /\ (~ Forall (eq x00) (kem_PublicKey_Bytes pk) ->
           publicKey_ToPEMFile (Some a) f m =
             let '(d, e) := os_WriteFile (disk m) f
                              (pem_EncodeToMemory
                                 (mkBlock (ToUpper (KEM_String k) ++ " PUBLIC KEY")
                                          (kem_PublicKey_Bytes pk)))
                              (6 * 64 + 0 * 8 + 0) in
             Ret (OsError <$> e, mkMem (pubs m) (privs m) d)))
  /\ (forall a kp k raw f m,
        privs m !! a = Some (mkPrivateKey (Some kp) (Some k)) ->
        kem_Keypair_MarshalBinary kp = inl raw ->
        (Forall (eq x00) raw ->
           privateKey_ToPEMFile (Some a) f m = Ret (Some err_scrubbed, m))
        /\ (~ Forall (eq x00) raw ->
              privateKey_ToPEMFile (Some a) f m =
                let '(d, e) := os_WriteFile (disk m) f
                                 (pem_EncodeToMemory
                                    (mkBlock (ToUpper (KEM_String k) ++ " PRIVATE KEY")
                                             raw))
                                 (6 * 64 + 0 * 8 + 0) in
                Ret (OsError <$> e, mkMem (pubs m) (privs m) d))).
Proof.
  split.
  - intros a pk k h f m H.
    rewrite (publicKey_ToPEMFile_Some _ _ _ _ _ _ H).
    destruct (CtIsZero (kem_PublicKey_Bytes pk)) eqn:Hz.
    + split; [reflexivity|]. intros Hn. exfalso. apply Hn.
      apply CtIsZero_spec. exact Hz.
    + split; [|reflexivity]. intros Hall.
      apply CtIsZero_spec in Hall. congruence.
  - intros a kp k raw f m H Hraw.
    rewrite (privateKey_ToPEMFile_Some _ _ _ _ _ _ H Hraw).
    destruct (CtIsZero raw) eqn:Hz.
    + split; [reflexivity|]. intros Hn. exfalso. apply Hn.
      apply CtIsZero_spec. exact Hz.
    + split; [|reflexivity]. intros Hall.
      apply CtIsZero_spec in Hall. congruence.
Qed.

(** ** Equality and hashing *)

Lemma bytes_Equal_spec a b : bytes_Equal a b = true <-> a = b.
Proof.
  revert b. induction a as [|x a IH]; intros [|y b]; simpl;
    try (split; [discriminate | intros [=]]); [tauto|].
  rewrite andb_true_iff, IH. split.
  - intros [Hxy ->]. apply Byte.byte_dec_bl in Hxy. congruence.
  - intros [= -> ->]. split; [apply Byte.byte_dec_lb|]; reflexivity.
Qed.

Lemma publicKey_Equal_Some a b pka pkb ka kb ha hb m :
  pubs m !! a = Some (mkPublicKey (Some pka) ka ha) ->
  pubs m !! b = Some (mkPublicKey (Some pkb) kb hb) ->
  publicKey_Equal (Some a) (Some b) m =
    Ret (bytes_Equal (kem_PublicKey_Bytes pkb) (kem_PublicKey_Bytes pka), m).
Proof.
  intros Ha Hb. unfold publicKey_Equal.
  rewrite (bind_Ret _ _ _ _ _ (publicKey_Bytes_Some _ _ _ _ _ Hb)).
  rewrite (bind_Ret _ _ _ _ _ (publicKey_Bytes_Some _ _ _ _ _ Ha)).
  reflexivity.
Qed.

(** C4: for two public keys, [Equal] returns true exactly when their raw
    bytes are the same sequence.  The [KEM] fields of the two keys play
    no part: keys of different algorithms with the same bytes compare
    equal. *)
Theorem publicKey_Equal_iff_bytes a b pka pkb ka kb ha hb m :
  pubs m !! a = Some (mkPublicKey (Some pka) ka ha) ->
  pubs m !! b = Some (mkPublicKey (Some pkb) kb hb) ->
  exists r, publicKey_Equal (Some a) (Some b) m = Ret (r, m)
    /\ (r = true <-> kem_PublicKey_Bytes pka = kem_PublicKey_Bytes pkb)
    /\ (ka <> kb -> kem_PublicKey_Bytes pka = kem_PublicKey_Bytes pkb -> r = true).
Proof.
  intros Ha Hb. rewrite (publicKey_Equal_Some _ _ _ _ _ _ _ _ _ Ha Hb).
  eexists. split; [reflexivity|].
  rewrite bytes_Equal_spec. split.
  - split; congruence.
  - intros _ ->. reflexivity.
Qed.

(** C6: on a public key whose raw bytes are [raw], [Sum256] returns the
    BLAKE2b-256 digest of [raw], which is 32 bytes long, and leaves the
    raw bytes as they are; called again, on the state the first call
    left or on any later state in which the raw bytes are still [raw],
    it returns the same value. *)
Theorem publicKey_Sum256_stable p raw m :
  publicKey_Bytes p m = Ret (raw, m) ->
  exists m1,
    publicKey_Sum256 p m = Ret (blake2b_Sum256 raw, m1)
    /\ publicKey_Bytes p m1 = Ret (raw, m1)
    /\ publicKey_Sum256 p m1 = Ret (blake2b_Sum256 raw, m1)
    /\ (forall m2, publicKey_Bytes p m2 = Ret (raw, m2) ->
          exists m3, publicKey_Sum256 p m2 = Ret (blake2b_Sum256 raw, m3))
    /\ length (blake2b_Sum256 raw) = 32.
Proof.
  assert (Step : forall m0, publicKey_Bytes p m0 = Ret (raw, m0) ->
            exists a pk k h,
              p = Some a /\ pubs m0 !! a = Some (mkPublicKey (Some pk) k h)
              /\ raw = kem_PublicKey_Bytes pk
              /\ publicKey_Sum256 p m0 =
                   Ret (blake2b_Sum256 raw,
                        mkMem (<[a := mkPublicKey (Some pk) k (blake2b_Sum256 raw)]> (pubs m0))
                              (privs m0) (disk m0))).
  { intros m0 H0. destruct (publicKey_Bytes_inv _ _ _ _ H0) as (_ & a & pk & k & h & -> & Ha & ->).
    exists a, pk, k, h. repeat split; try assumption.
    unfold publicKey_Sum256.
    rewrite (bind_Ret _ _ _ _ _ H0).
    rewrite (bind_Ret _ _ _ _ _ (load_pub_Some _ _ _ Ha)).
    cbv [bind store_pub load_pub ret pubs pub_publicKey pub_KEM pub_hash].
    rewrite list_lookup_insert_eq; [reflexivity|].
    apply lookup_lt_Some in Ha. exact Ha. }
  intros H. destruct (Step m H) as (a & pk & k & h & -> & Ha & -> & HS).
  eexists. split; [exact HS|].
  assert (Ha1 : pubs (mkMem (<[a := mkPublicKey (Some pk) k (blake2b_Sum256 (kem_PublicKey_Bytes pk))]> (pubs m))
                            (privs m) (disk m)) !! a
                = Some (mkPublicKey (Some pk) k (blake2b_Sum256 (kem_PublicKey_Bytes pk)))).
  { simpl. apply list_lookup_insert_eq. apply lookup_lt_Some in Ha. exact Ha. }
  pose proof (publicKey_Bytes_Some _ _ _ _ _ Ha1) as HB1.
  split; [exact HB1|]. split.
  - destruct (Step _ HB1) as (a' & pk' & k' & h' & [= <-] & Ha' & Hraw & HS').
    rewrite HS'. simpl. rewrite list_insert_insert_eq.
    rewrite Ha1 in Ha'. injection Ha' as <- <- <-. reflexivity.
  - split; [|apply blake2b_Sum256_size].
    intros m2 H2. destruct (Step _ H2) as (a' & pk' & k' & h' & _ & _ & _ & HS').
    eexists. exact HS'.
Qed.

(** ** Serialization of a private key *)

(** C8: for a private key that holds a key pair, [Bytes] returns the key
    pair's serialization, with the memory unchanged, whenever
    [MarshalBinary] gives one; when [MarshalBinary] fails, [Bytes]
    panics with that error: it neither returns an error value nor goes
    on. *)
Theorem privateKey_Bytes_or_panic a kp k m :
  privs m !! a = Some (mkPrivateKey (Some kp) k) ->
  (forall raw, kem_Keypair_MarshalBinary kp = inl raw ->
     privateKey_Bytes (Some a) m = Ret (raw, m))
  /\ (forall err, kem_Keypair_MarshalBinary kp = inr err ->
        privateKey_Bytes (Some a) m = Panic (PanicError (KemError err)))
  /\ ((exists raw, privateKey_Bytes (Some a) m = Ret (raw, m))
      \/ (exists v, privateKey_Bytes (Some a) m = Panic v)).
Proof.
  intros H. rewrite (privateKey_Bytes_Some _ _ _ _ H).
  destruct (kem_Keypair_MarshalBinary kp) as [raw|err].
  - split; [|split]; [intros ? [= <-]; reflexivity | intros ? [=] | left; eauto].
  - split; [|split]; [intros ? [=] | intros ? [= <-]; reflexivity | right; eauto].
Qed.

(** ** FromBytes *)

(** C10: when the KEM primitive rejects the bytes, [FromBytes] on a
    public or private key returns the primitive's error and the memory,
    hence the key, is exactly as before; when it accepts them, the parsed
    value is the key's new content and nil is returned. *)
Theorem FromBytes_rejected_keeps_key :
  (forall a o k b m,
     pubs m !! a = Some o -> pub_KEM o = Some k ->
     (forall err, KEM_ParsePublicKey k b = inr err ->
        publicKey_FromBytes (Some a) b m = Ret (Some (KemError err), m))
     /\ (forall pk, KEM_ParsePublicKey k b = inl pk ->
           publicKey_FromBytes (Some a) b m =
             Ret (None, mkMem (<[a := mkPublicKey (Some pk) (pub_KEM o) (pub_hash o)]> (pubs m))
                              (privs m) (disk m))))
  /\ (forall a o k b m,
        privs m !! a = Some o -> priv_KEM o = Some k ->
        (forall err, KEM_ParsePrivateKey k b = inr err ->
           privateKey_FromBytes (Some a) b m = Ret (Some (KemError err), m))
        /\ (forall kp, KEM_ParsePrivateKey k b = inl kp ->
              privateKey_FromBytes (Some a) b m =
                Ret (None, mkMem (pubs m)
                                 (<[a := mkPrivateKey (Some kp) (priv_KEM o)]> (privs m))
                                 (disk m)))).
Proof.
  split.
  - intros a o k b m Ha Hk. unfold publicKey_FromBytes.
    rewrite (bind_Ret _ _ _ _ _ (load_pub_Some _ _ _ Ha)). rewrite Hk.
    cbv [bind deref ret]. split; intros ? ->; reflexivity.
  - intros a o k b m Ha Hk. unfold privateKey_FromBytes.
    rewrite (bind_Ret _ _ _ _ _ (load_priv_Some _ _ _ Ha)). rewrite Hk.
    cbv [bind deref ret]. split; intros ? ->; reflexivity.
Qed.

(** ** Loading from a PEM file *)

Lemma string_app_inv_head (s t u : string) : s ++ t = s ++ u -> t = u.
Proof. induction s as [|c s IH]; simpl; [tauto | intros [= H]; auto]. Qed.

Lemma public_tag_not_private (n : string) :
  n ++ " PUBLIC KEY" <> n ++ " PRIVATE KEY".
Proof. intros H. apply string_app_inv_head in H. discriminate. Qed.

Lemma ReadFile_ok f buf m :
  os_ReadFile (disk m) f = inl buf -> ReadFile f m = Ret (inl buf, m).
Proof. unfold ReadFile. intros ->. reflexivity. Qed.

Lemma scheme_PublicKeyFromPemFile_mismatch s k f buf blk rest m :
  scheme_KEM s = Some k ->
  os_ReadFile (disk m) f = inl buf ->
  pem_Decode buf = Some (blk, rest) ->
  ToUpper (Type_ blk) <> ToUpper (KEM_String k) ++ " PUBLIC KEY" ->
  scheme_PublicKeyFromPemFile s f m =
    Ret ((None, Some (err_wrong_type (Type_ blk)
                        (ToUpper (KEM_String k) ++ " PUBLIC KEY"))), m).
Proof.
  intros Hk Hr Hd Hne. unfold scheme_PublicKeyFromPemFile. rewrite Hk.
  cbv [deref]. unfold bind at 1. cbv [ret].
  rewrite (bind_Ret _ _ _ _ _ (ReadFile_ok _ _ _ Hr)), Hd.
  apply String.eqb_neq in Hne. rewrite Hne. reflexivity.
Qed.

Lemma scheme_PrivateKeyFromPemFile_mismatch s k f buf blk rest m :
  scheme_KEM s = Some k ->
  os_ReadFile (disk m) f = inl buf ->
  pem_Decode buf = Some (blk, rest) ->
  ToUpper (Type_ blk) <> ToUpper (KEM_String k) ++ " PRIVATE KEY" ->
  scheme_PrivateKeyFromPemFile s f m =
    Ret ((None, Some (err_wrong_type (Type_ blk)
                        (ToUpper (KEM_String k) ++ " PRIVATE KEY"))), m).
Proof.
  intros Hk Hr Hd Hne. unfold scheme_PrivateKeyFromPemFile. rewrite Hk.
  cbv [deref]. unfold bind at 1. cbv [ret].
  rewrite (bind_Ret _ _ _ _ _ (ReadFile_ok _ _ _ Hr)), Hd.
  apply String.eqb_neq in Hne. rewrite Hne. reflexivity.
Qed.

Lemma publicKey_FromPEMFile_mismatch a o k f buf blk rest m :
  pubs m !! a = Some o -> pub_KEM o = Some k ->
  os_ReadFile (disk m) f = inl buf ->
  pem_Decode buf = Some (blk, rest) ->
  ToUpper (Type_ blk) <> ToUpper (KEM_String k) ++ " PUBLIC KEY" ->
  publicKey_FromPEMFile (Some a) f m =
    Ret (Some (err_wrong_type (Type_ blk)
                 (ToUpper (KEM_String k) ++ " PUBLIC KEY")), m).
Proof.
  intros Ha Hk Hr Hd Hne. destruct o as [pk ko h]. simpl in Hk. subst ko.
  unfold publicKey_FromPEMFile.
  rewrite (bind_Ret _ _ _ _ _ (publicKey_KeyType_Some _ _ _ _ _ Ha)).
  rewrite (bind_Ret _ _ _ _ _ (ReadFile_ok _ _ _ Hr)), Hd.
  apply String.eqb_neq in Hne. rewrite Hne. reflexivity.
Qed.

Lemma privateKey_FromPEMFile_mismatch a o k f buf blk rest m :
  privs m !! a = Some o -> priv_KEM o = Some k ->
  os_ReadFile (disk m) f = inl buf ->
  pem_Decode buf = Some (blk, rest) ->
  ToUpper (Type_ blk) <> ToUpper (KEM_String k) ++ " PRIVATE KEY" ->
  privateKey_FromPEMFile (Some a) f m =
    Ret (Some (err_wrong_type (Type_ blk)
                 (ToUpper (KEM_String k) ++ " PRIVATE KEY")), m).
Proof.
  intros Ha Hk Hr Hd Hne. destruct o as [kp ko]. simpl in Hk. subst ko.
  unfold privateKey_FromPEMFile.
  rewrite (bind_Ret _ _ _ _ _ (privateKey_KeyType_Some _ _ _ _ Ha)).
  rewrite (bind_Ret _ _ _ _ _ (ReadFile_ok _ _ _ Hr)), Hd.
  apply String.eqb_neq in Hne. rewrite Hne. reflexivity.
Qed.

(** C2: when the file is read and a PEM block is decoded from it, and
    the block's type tag in upper case is not the tag of the scheme's
    algorithm for the key class being loaded, the loader returns no key
    and the error whose message carries the actual tag and the expected
    one, and the memory is as before.  This holds for the scheme's
    public and private loaders and for the [FromPEMFile] method of either
    key; in particular the private loader rejects a block whose tag is
    the public-key tag. *)
Theorem FromPemFile_wrong_tag_fails s k f buf blk rest m :
  scheme_KEM s = Some k ->
  os_ReadFile (disk m) f = inl buf ->
  pem_Decode buf = Some (blk, rest) ->
  let pubTag := ToUpper (KEM_String k) ++ " PUBLIC KEY" in
  let privTag := ToUpper (KEM_String k) ++ " PRIVATE KEY" in
  let mismatch (expected : string) :=
    Errorf ("attempted to decode PEM file with wrong key type "
            ++ Type_ blk ++ " != " ++ expected) in
  (ToUpper (Type_ blk) <> pubTag ->
     scheme_PublicKeyFromPemFile s f m = Ret ((None, Some (mismatch pubTag)), m)
     /\ forall a o, pubs m !! a = Some o -> pub_KEM o = Some k ->
          publicKey_FromPEMFile (Some a) f m = Ret (Some (mismatch pubTag), m))
  /\ (ToUpper (Type_ blk) <> privTag ->
        scheme_PrivateKeyFromPemFile s f m = Ret ((None, Some (mismatch privTag)), m)
        /\ forall a o, privs m !! a = Some o -> priv_KEM o = Some k ->
             privateKey_FromPEMFile (Some a) f m = Ret (Some (mismatch privTag), m))
  /\ (ToUpper (Type_ blk) = pubTag ->
        scheme_PrivateKeyFromPemFile s f m = Ret ((None, Some (mismatch privTag)), m)).
Proof.
  intros Hk Hr Hd pubTag privTag mismatch. split; [|split].
  - intros Hne. split.
    + exact (scheme_PublicKeyFromPemFile_mismatch _ _ _ _ _ _ _ Hk Hr Hd Hne).
    + intros a o Ha Ho.
      exact (publicKey_FromPEMFile_mismatch _ _ _ _ _ _ _ _ Ha Ho Hr Hd Hne).
  - intros Hne. split.
    + exact (scheme_PrivateKeyFromPemFile_mismatch _ _ _ _ _ _ _ Hk Hr Hd Hne).
    + intros a o Ha Ho.
      exact (privateKey_FromPEMFile_mismatch _ _ _ _ _ _ _ _ Ha Ho Hr Hd Hne).
  - intros Heq.
    apply (scheme_PrivateKeyFromPemFile_mismatch _ _ _ _ _ _ _ Hk Hr Hd).
    rewrite Heq. apply public_tag_not_private.
Qed.

(** ** Parsing through the scheme *)

Lemma scheme_PublicKeyFromBytes_eq s k b m :
  scheme_KEM s = Some k ->
  scheme_PublicKeyFromBytes s b m =
    match KEM_ParsePublicKey k b with
    | inr err => Ret ((None, Some (KemError err)), m)
    | inl pk => Ret ((Some (length (pubs m)), None),
                     mkMem (pubs m ++ [mkPublicKey (Some pk) (Some k) zero_hash])
                           (privs m) (disk m))
    end.
Proof.
  intros Hk. unfold scheme_PublicKeyFromBytes. rewrite Hk.
  cbv [deref bind ret alloc_pub]. destruct (KEM_ParsePublicKey k b); reflexivity.
Qed.

Lemma scheme_PrivateKeyFromBytes_eq s k b m :
  scheme_KEM s = Some k ->
  scheme_PrivateKeyFromBytes s b m =
    match KEM_ParsePrivateKey k b with
    | inr err => Ret ((None, Some (KemError err)), m)
    | inl kp => Ret ((Some (length (privs m)), None),
                     mkMem (pubs m)
                           (privs m ++ [mkPrivateKey (Some kp) (Some k)]) (disk m))
    end.
Proof.
  intros Hk. unfold scheme_PrivateKeyFromBytes. rewrite Hk.
  cbv [deref bind ret alloc_priv]. destruct (KEM_ParsePrivateKey k b); reflexivity.
Qed.

Lemma scheme_FromBytes_nil s b m :
  scheme_KEM s = None ->
  scheme_PublicKeyFromBytes s b m = Panic NilDereference
  /\ scheme_PrivateKeyFromBytes s b m = Panic NilDereference.
Proof.
  intros Hk. unfold scheme_PublicKeyFromBytes, scheme_PrivateKeyFromBytes.
  rewrite Hk. split; reflexivity.
Qed.

(** C9: [UnmarshalTextPublicKey] and [UnmarshalTextPrivateKey] decode the
    text with base64's standard encoding first.  When decoding fails they
    return no key and base64's [CorruptInputError], with the memory as
    before; when it succeeds they are the scheme's [FromBytes] on the
    decoded bytes.  An error that [FromBytes] returns is a [KemError],
    which a [CorruptInputError] never is. *)
Theorem UnmarshalText_decodes_then_parses s b m :
  (forall off, base64_StdEncoding_DecodeString (string_of_bytes b) = inr off ->
     scheme_UnmarshalTextPublicKey s b m = Ret ((None, Some (CorruptInputError off)), m)
     /\ scheme_UnmarshalTextPrivateKey s b m = Ret ((None, Some (CorruptInputError off)), m))
  /\ (forall raw, base64_StdEncoding_DecodeString (string_of_bytes b) = inl raw ->
        scheme_UnmarshalTextPublicKey s b m = scheme_PublicKeyFromBytes s raw m
        /\ scheme_UnmarshalTextPrivateKey s b m = scheme_PrivateKeyFromBytes s raw m)
  /\ (forall raw key err m',
        scheme_PublicKeyFromBytes s raw m = Ret ((key, Some err), m')
        \/ scheme_PrivateKeyFromBytes s raw m = Ret ((key, Some err), m') ->
        key = None /\ (exists msg, err = KemError msg)
        /\ forall off, err <> CorruptInputError off).
Proof.
  split; [|split].
  - intros off H. unfold scheme_UnmarshalTextPublicKey, scheme_UnmarshalTextPrivateKey.
    rewrite H. split; reflexivity.
  - intros raw H. unfold scheme_UnmarshalTextPublicKey, scheme_UnmarshalTextPrivateKey.
    rewrite H. split; reflexivity.
  - intros raw key err m' H.
    destruct (scheme_KEM s) as [k|] eqn:Hk.
    + rewrite (scheme_PublicKeyFromBytes_eq _ _ _ _ Hk) in H.
      rewrite (scheme_PrivateKeyFromBytes_eq _ _ _ _ Hk) in H.
      destruct H as [H|H].
      * destruct (KEM_ParsePublicKey k raw); [discriminate|].
        injection H as <- <- <-.
        split; [reflexivity|]. split; [eauto | discriminate].
      * destruct (KEM_ParsePrivateKey k raw); [discriminate|].
        injection H as <- <- <-.
        split; [reflexivity|]. split; [eauto | discriminate].
    + destruct (scheme_FromBytes_nil s raw m Hk) as [H1 H2].
      rewrite H1, H2 in H. destruct H; discriminate.
Qed.

(** ** Key generation *)

Lemma privateKey_PublicKey_Some a kp k m :
  privs m !! a = Some (mkPrivateKey (Some kp) k) ->
  privateKey_PublicKey (Some a) m =
    Ret (Some (length (pubs m)),
         mkMem (pubs m ++ [mkPublicKey (Some (kem_Keypair_Public kp)) k
                             (blake2b_Sum256 (kem_PublicKey_Bytes (kem_Keypair_Public kp)))])
               (privs m) (disk m)).
Proof.
  intros H. unfold privateKey_PublicKey.
  rewrite (bind_Ret _ _ _ _ _ (load_priv_Some _ _ _ H)). reflexivity.
Qed.

Lemma scheme_GenerateKeypair_eq s r m :
  scheme_GenerateKeypair s r m =
    match seec_GenKeyPRPAES r 256 with
    | inr err => Panic (PanicError (SeecError err))
    | inl g =>
        match scheme_KEM s with
        | None => Panic NilDereference
        | Some k =>
            match KEM_GenerateKeypair k g with
            | inr err => Panic (PanicError (KemError err))
            | inl kp =>
                Ret ((Some (length (privs m)), Some (length (pubs m))),
                     mkMem (pubs m ++ [mkPublicKey (Some (kem_Keypair_Public kp)) (Some k)
                                         (blake2b_Sum256
                                            (kem_PublicKey_Bytes (kem_Keypair_Public kp)))])
                           (privs m ++ [mkPrivateKey (Some kp) (Some k)])
                           (disk m))
            end
        end
    end.
Proof.
  unfold scheme_GenerateKeypair.
  destruct (seec_GenKeyPRPAES r 256) as [g|err]; [|reflexivity].
  destruct (scheme_KEM s) as [k|]; [|reflexivity].
  cbv [deref]. unfold bind at 1. cbv [ret].
  destruct (KEM_GenerateKeypair k g) as [kp|err]; [|reflexivity].
  unfold bind at 1. cbv [alloc_priv].
  erewrite bind_Ret.
  2:{ apply privateKey_PublicKey_Some with (kp := kp) (k := Some k).
      simpl. apply list_lookup_middle. reflexivity. }
  reflexivity.
Qed.

(** C7: [GenerateKeypair] panics with the error of [seec.GenKeyPRPAES]
    when seeding fails and with the error of the KEM's [GenerateKeypair]
    when generation fails, so in neither case is a value returned.  When
    it returns, seeding and generation both succeeded, the private key
    holds the generated key pair and the scheme's KEM, and the public key
    holds that key pair's public part, the same KEM and the digest of the
    public bytes.  And when seeding and generation succeed it does
    return: two pointers to two new structs, the private key with the
    generated key pair and the public key derived from it, added to a
    memory that is otherwise as before. *)
Theorem GenerateKeypair_panics_or_complete s r m :
  (forall err, seec_GenKeyPRPAES r 256 = inr err ->
     scheme_GenerateKeypair s r m = Panic (PanicError (SeecError err)))
  /\ (forall g k err,
        seec_GenKeyPRPAES r 256 = inl g -> scheme_KEM s = Some k ->
        KEM_GenerateKeypair k g = inr err ->
        scheme_GenerateKeypair s r m = Panic (PanicError (KemError err)))
  /\ (forall priv pub m1,
        scheme_GenerateKeypair s r m = Ret ((priv, pub), m1) ->
        exists g k kp a b,
          seec_GenKeyPRPAES r 256 = inl g /\ scheme_KEM s = Some k
          /\ KEM_GenerateKeypair k g = inl kp
          /\ priv = Some a /\ pub = Some b
          /\ privs m1 !! a = Some (mkPrivateKey (Some kp) (Some k))
          /\ pubs m1 !! b =
               Some (mkPublicKey (Some (kem_Keypair_Public kp)) (Some k)
                       (blake2b_Sum256 (kem_PublicKey_Bytes (kem_Keypair_Public kp)))))
  /\ (forall g k kp,
        seec_GenKeyPRPAES r 256 = inl g -> scheme_KEM s = Some k ->
        KEM_GenerateKeypair k g = inl kp ->
        scheme_GenerateKeypair s r m =
          Ret ((Some (length (privs m)), Some (length (pubs m))),
               mkMem (pubs m ++ [mkPublicKey (Some (kem_Keypair_Public kp)) (Some k)
                                   (blake2b_Sum256
                                      (kem_PublicKey_Bytes (kem_Keypair_Public kp)))])
                     (privs m ++ [mkPrivateKey (Some kp) (Some k)])
                     (disk m))).
Proof.
  rewrite scheme_GenerateKeypair_eq. split; [|split; [|split]].
  - intros err ->. reflexivity.
  - intros g k err -> -> ->. reflexivity.
  - intros priv pub m1 H.
    destruct (seec_GenKeyPRPAES r 256) as [g|]; [|discriminate].
    destruct (scheme_KEM s) as [k|]; [|discriminate].
    destruct (KEM_GenerateKeypair k g) as [kp|] eqn:Hg; [|discriminate].
    injection H as <- <- <-.
    exists g, k, kp, (length (privs m)), (length (pubs m)).
    repeat split; try reflexivity; try assumption;
      simpl; apply list_lookup_middle; reflexivity.
  - intros g k kp -> -> ->. reflexivity.
Qed.

(** ** Round trip through bytes *)

Lemma public_roundtrip_at s k a pk ko h m1 :
  scheme_KEM s = Some k -> kem_roundtrips k -> kem_issues_public k pk ->
  pubs m1 !! a = Some (mkPublicKey (Some pk) ko h) ->
  exists raw pub' m2,
    publicKey_Bytes (Some a) m1 = Ret (raw, m1)
    /\ scheme_PublicKeyFromBytes s raw m1 = Ret ((pub', None), m2)
    /\ publicKey_Equal pub' (Some a) m2 = Ret (true, m2).
Proof.
  intros Hk [Hpub _] Hiss Ha.
  destruct (Hpub pk Hiss) as (pk' & Hparse & Hsame).
  eexists _, _, _. split; [exact (publicKey_Bytes_Some _ _ _ _ _ Ha)|].
  rewrite (scheme_PublicKeyFromBytes_eq _ _ _ _ Hk), Hparse.
  split; [reflexivity|].
  erewrite publicKey_Equal_Some.
  - f_equal. f_equal. apply bytes_Equal_spec. symmetry. exact Hsame.
  - simpl. apply list_lookup_middle. reflexivity.
  - simpl. apply lookup_app_l_Some. exact Ha.
Qed.

Lemma private_roundtrip_at s k a kp ko raw m1 :
  scheme_KEM s = Some k -> kem_roundtrips k -> kem_issues_keypair k kp ->
  privs m1 !! a = Some (mkPrivateKey (Some kp) ko) ->
  privateKey_Bytes (Some a) m1 = Ret (raw, m1) ->
  exists priv' m2,
    scheme_PrivateKeyFromBytes s raw m1 = Ret ((priv', None), m2)
    /\ privateKey_Bytes priv' m2 = Ret (raw, m2).
Proof.
  intros Hk [_ Hpriv] Hiss Ha HB.
  rewrite (privateKey_Bytes_Some _ _ _ _ Ha) in HB.
  destruct (kem_Keypair_MarshalBinary kp) as [raw0|] eqn:Hm; [|discriminate].
  injection HB as ->.
  destruct (Hpriv kp raw Hiss Hm) as (kp' & Hparse & Hsame).
  eexists _, _.
  rewrite (scheme_PrivateKeyFromBytes_eq _ _ _ _ Hk), Hparse.
  split; [reflexivity|].
  erewrite privateKey_Bytes_Some.
  2:{ simpl. apply list_lookup_middle. reflexivity. }
  rewrite Hsame. reflexivity.
Qed.

(** C5: let the scheme's KEM round-trip.  For a public key the scheme
    returned, from [PublicKeyFromBytes] or from [GenerateKeypair],
    [PublicKeyFromBytes] on its [Bytes] succeeds and the new key is
    [Equal] to it.  For a private key the scheme returned, from
    [PrivateKeyFromBytes] or from [GenerateKeypair], whose [Bytes] are
    [raw], [PrivateKeyFromBytes] on [raw] succeeds and the [Bytes] of the
    new key are [raw] again. *)
Theorem scheme_bytes_roundtrip s k :
  scheme_KEM s = Some k -> kem_roundtrips k ->
  (forall pub m1,
     (exists b m, scheme_PublicKeyFromBytes s b m = Ret ((pub, None), m1))
     \/ (exists r m priv, scheme_GenerateKeypair s r m = Ret ((priv, pub), m1)) ->
     exists raw pub' m2,
       publicKey_Bytes pub m1 = Ret (raw, m1)
       /\ scheme_PublicKeyFromBytes s raw m1 = Ret ((pub', None), m2)
       /\ publicKey_Equal pub' pub m2 = Ret (true, m2))
  /\ (forall priv m1 raw,
        (exists b m, scheme_PrivateKeyFromBytes s b m = Ret ((priv, None), m1))
        \/ (exists r m pub, scheme_GenerateKeypair s r m = Ret ((priv, pub), m1)) ->
        privateKey_Bytes priv m1 = Ret (raw, m1) ->
        exists priv' m2,
          scheme_PrivateKeyFromBytes s raw m1 = Ret ((priv', None), m2)
          /\ privateKey_Bytes priv' m2 = Ret (raw, m2)).
Proof.
  intros Hk Hrt. split.
  - intros pub m1 [(b & m & H) | (r & m & priv & H)].
    + rewrite (scheme_PublicKeyFromBytes_eq _ _ _ _ Hk) in H.
      destruct (KEM_ParsePublicKey k b) as [pk|] eqn:Hp; [|discriminate].
      injection H as <- <-.
      apply (public_roundtrip_at s k _ pk (Some k) zero_hash); try assumption.
      * left. eauto.
      * simpl. apply list_lookup_middle. reflexivity.
    + rewrite scheme_GenerateKeypair_eq, Hk in H.
      destruct (seec_GenKeyPRPAES r 256) as [g|]; [|discriminate].
      destruct (KEM_GenerateKeypair k g) as [kp|] eqn:Hg; [|discriminate].
      injection H as <- <- <-.
      eapply (public_roundtrip_at s k _ (kem_Keypair_Public kp)); try assumption.
      * right. right. eauto.
      * simpl. apply list_lookup_middle. reflexivity.
  - intros priv m1 raw [(b & m & H) | (r & m & pub & H)] HB.
    + rewrite (scheme_PrivateKeyFromBytes_eq _ _ _ _ Hk) in H.
      destruct (KEM_ParsePrivateKey k b) as [kp|] eqn:Hp; [|discriminate].
      injection H as <- <-.
      eapply (private_roundtrip_at s k _ kp); try eassumption.
      * left. eauto.
      * simpl. apply list_lookup_middle. reflexivity.
    + rewrite scheme_GenerateKeypair_eq, Hk in H.
      destruct (seec_GenKeyPRPAES r 256) as [g|]; [|discriminate].
      destruct (KEM_GenerateKeypair k g) as [kp|] eqn:Hg; [|discriminate].
      injection H as <- <- <-.
      eapply (private_roundtrip_at s k _ kp); try eassumption.
      * right. eauto.
      * simpl. apply list_lookup_middle. reflexivity.
Qed.

End Properties.

(** * The theorems at concrete inputs *)

Lemma sample_kem_roundtrips : kem_roundtrips Sample.kem_a.
Proof.
  assert (L2 : forall raw : bytes, length raw = 4 -> length (take 2 raw) = 2).
  { intros raw H. rewrite length_take. lia. }
  assert (Hpriv : forall b kp, Sample.parse_private b = inl kp ->
            kp = Sample.keypair_of b /\ length b = 4).
  { intros b kp. unfold Sample.parse_private.
    destruct (length b =? 4)%nat eqn:E; [|discriminate].
    intros [= <-]. split; [reflexivity|]. apply Nat.eqb_eq. exact E. }
  assert (Hgen : forall r kp, Sample.generate r = inl kp ->
            kp = Sample.keypair_of (take 4 r) /\ length (take 4 r) = 4).
  { intros r kp. unfold Sample.generate.
    destruct (4 <=? length r)%nat eqn:E; [|discriminate].
    intros [= <-]. split; [reflexivity|].
    apply Nat.leb_le in E. rewrite length_take. lia. }
  assert (Hacc : forall b : bytes, length b = 2 ->
            Sample.parse_public b = inl (mkKemPublicKey b)).
  { intros b H. unfold Sample.parse_public. rewrite H. reflexivity. }
  split.
  - intros pk Hiss. exists pk. split; [|reflexivity].
    simpl. destruct pk as [b]. simpl. apply Hacc.
    destruct Hiss as [(b0 & H) | [(b0 & kp & H & E) | (r & kp & H & E)]]; simpl in H.
    + unfold Sample.parse_public in H.
      destruct (length b0 =? 2)%nat eqn:E; [|discriminate].
      injection H as ->. apply Nat.eqb_eq. exact E.
    + destruct (Hpriv _ _ H) as [-> Hl]. injection E as <-. auto.
    + destruct (Hgen _ _ H) as [-> Hl]. injection E as <-. auto.
  - intros kp raw Hiss Hm. exists kp. split; [|exact Hm].
    simpl. destruct Hiss as [(b & H) | (r & H)]; simpl in H.
    + destruct (Hpriv _ _ H) as [-> Hl]. injection Hm as <-.
      unfold Sample.parse_private. rewrite Hl. reflexivity.
    + destruct (Hgen _ _ H) as [-> Hl]. injection Hm as <-.
      unfold Sample.parse_private. rewrite Hl. reflexivity.
Qed.

Lemma Reset_then_ToPEMFile_still_writes_witness :
  (pubs Sample.m0 !! 0 = Some (mkPublicKey (Some Sample.pk12) (Some Sample.kem_a) zero_hash)
   /\ CtIsZero (kem_PublicKey_Bytes Sample.pk12) = false
   /\ (u <- publicKey_Reset (Some 0) ;; publicKey_ToPEMFile (Some 0) "out.pem") Sample.m0
        = WriteFile "out.pem" (Sample.encode (mkBlock "KEM-A PUBLIC KEY" [x01; x02]))
                    mode_0600 Sample.m0)
  /\ (privs Sample.m0 !! 0 = Some (mkPrivateKey (Some Sample.kp1234) (Some Sample.kem_a))
      /\ kem_Keypair_MarshalBinary Sample.kp1234 = inl [x01; x02; x03; x04]
      /\ CtIsZero [x01; x02; x03; x04] = false
      /\ (u <- privateKey_Reset (Some 0) ;; privateKey_ToPEMFile (Some 0) "out.pem") Sample.m0
           = WriteFile "out.pem"
                       (Sample.encode (mkBlock "KEM-A PRIVATE KEY" [x01; x02; x03; x04]))
                       mode_0600 Sample.m0).
Proof.
  split.
  - split; [reflexivity|]. split; [reflexivity|].
    apply (proj1 Reset_then_ToPEMFile_still_writes 0 Sample.pk12 Sample.kem_a
             zero_hash "out.pem" Sample.m0); reflexivity.
  - split; [reflexivity|]. split; [reflexivity|]. split; [reflexivity|].
    apply (proj2 Reset_then_ToPEMFile_still_writes 0 Sample.kp1234 Sample.kem_a
             [x01; x02; x03; x04] "out.pem" Sample.m0); reflexivity.
Defined.

Lemma ToPEMFile_zero_guard_witness :
  (Forall (eq x00) (kem_PublicKey_Bytes Sample.pk00)
   /\ publicKey_ToPEMFile (Some 2) "out.pem" Sample.m0 = Ret (Some err_scrubbed, Sample.m0))
  /\ (~ Forall (eq x00) (kem_PublicKey_Bytes Sample.pk12)
      /\ publicKey_ToPEMFile (Some 0) "out.pem" Sample.m0 =
           Ret (None, mkMem (pubs Sample.m0) (privs Sample.m0)
                        (("out.pem", (Sample.encode (mkBlock "KEM-A PUBLIC KEY" [x01; x02]),
                                      384%N)) :: disk Sample.m0)))
  /\ (Forall (eq x00) [x00; x00; x00; x00]
      /\ privateKey_ToPEMFile (Some 1) "out.pem" Sample.m0 = Ret (Some err_scrubbed, Sample.m0))
  /\ (~ Forall (eq x00) [x01; x02; x03; x04]
      /\ privateKey_ToPEMFile (Some 0) "out.pem" Sample.m0 =
           Ret (None, mkMem (pubs Sample.m0) (privs Sample.m0)
                        (("out.pem",
                          (Sample.encode (mkBlock "KEM-A PRIVATE KEY" [x01; x02; x03; x04]),
                           384%N)) :: disk Sample.m0))).
Proof.
  assert (Z2 : Forall (eq x00) [x00; x00]) by (repeat constructor).
  assert (Z4 : Forall (eq x00) [x00; x00; x00; x00]) by (repeat constructor).
  assert (N2 : ~ Forall (eq x00) [x01; x02]).
  { intros H. apply Forall_cons in H as [H _]. discriminate H. }
  assert (N4 : ~ Forall (eq x00) [x01; x02; x03; x04]).
  { intros H. apply Forall_cons in H as [H _]. discriminate H. }
  split; [|split; [|split]].
  - split; [exact Z2|].
    apply (proj1 (proj1 ToPEMFile_zero_guard 2 Sample.pk00 Sample.kem_a zero_hash
                    "out.pem" Sample.m0 eq_refl)). exact Z2.
  - split; [exact N2|].
    apply (proj2 (proj1 ToPEMFile_zero_guard 0 Sample.pk12 Sample.kem_a zero_hash
                    "out.pem" Sample.m0 eq_refl)). exact N2.
  - split; [exact Z4|].
    apply (proj1 (proj2 ToPEMFile_zero_guard 1 Sample.kp0000 Sample.kem_a
                    [x00; x00; x00; x00] "out.pem" Sample.m0 eq_refl eq_refl)). exact Z4.
  - split; [exact N4|].
    apply (proj2 (proj2 ToPEMFile_zero_guard 0 Sample.kp1234 Sample.kem_a
                    [x01; x02; x03; x04] "out.pem" Sample.m0 eq_refl eq_refl)). exact N4.
Defined.

Lemma FromPemFile_wrong_tag_fails_witness :
  (scheme_PrivateKeyFromPemFile Sample.scheme_a "pub.pem" Sample.m0 =
     Ret ((None,
           Some (Errorf "attempted to decode PEM file with wrong key type KEM-A PUBLIC KEY != KEM-A PRIVATE KEY")),
          Sample.m0)
   /\ privateKey_FromPEMFile (Some 0) "pub.pem" Sample.m0 =
        Ret (Some (Errorf "attempted to decode PEM file with wrong key type KEM-A PUBLIC KEY != KEM-A PRIVATE KEY"),
             Sample.m0))
  /\ (scheme_PublicKeyFromPemFile Sample.scheme_a "rsa.pem" Sample.m0 =
        Ret ((None,
              Some (Errorf "attempted to decode PEM file with wrong key type RSA PRIVATE KEY != KEM-A PUBLIC KEY")),
             Sample.m0)
      /\ publicKey_FromPEMFile (Some 0) "rsa.pem" Sample.m0 =
           Ret (Some (Errorf "attempted to decode PEM file with wrong key type RSA PRIVATE KEY != KEM-A PUBLIC KEY"),
                Sample.m0)).
Proof.
  pose proof (FromPemFile_wrong_tag_fails Sample.scheme_a Sample.kem_a "pub.pem"
                Sample.pub_pem (mkBlock "KEM-A PUBLIC KEY" [x01; x02]) []
                Sample.m0 eq_refl eq_refl eq_refl) as Hpub.
  pose proof (FromPemFile_wrong_tag_fails Sample.scheme_a Sample.kem_a "rsa.pem"
                Sample.rsa_pem (mkBlock "RSA PRIVATE KEY" [x01; x02]) []
                Sample.m0 eq_refl eq_refl eq_refl) as Hrsa.
  simpl in Hpub, Hrsa.
  destruct Hpub as (_ & Hpriv & Hconf). destruct Hrsa as (Hp & _ & _).
  split.
  - split; [exact (Hconf eq_refl)|].
    assert (Hne : "KEM-A PUBLIC KEY" <> "KEM-A PRIVATE KEY") by discriminate.
    exact (proj2 (Hpriv Hne) 0 _ eq_refl eq_refl).
  - assert (Hne : "RSA PRIVATE KEY" <> "KEM-A PUBLIC KEY") by discriminate.
    split; [exact (proj1 (Hp Hne))|].
    exact (proj2 (Hp Hne) 0 _ eq_refl eq_refl).
Defined.

Lemma publicKey_Equal_iff_bytes_witness :
  Some Sample.kem_a <> Some Sample.kem_b
  /\ publicKey_Equal (Some 0) (Some 1) Sample.m0 = Ret (true, Sample.m0)
  /\ publicKey_Equal (Some 0) (Some 2) Sample.m0 = Ret (false, Sample.m0).
Proof.
  assert (Hk : Some Sample.kem_a <> Some Sample.kem_b) by discriminate.
  split; [exact Hk|]. split.
  - destruct (publicKey_Equal_iff_bytes 0 1 Sample.pk12 Sample.pk12
                (Some Sample.kem_a) (Some Sample.kem_b) zero_hash zero_hash
                Sample.m0 eq_refl eq_refl) as (r & Hr & _ & Hdiff).
    rewrite Hr, (Hdiff Hk eq_refl). reflexivity.
  - destruct (publicKey_Equal_iff_bytes 0 2 Sample.pk12 Sample.pk00
                (Some Sample.kem_a) (Some Sample.kem_a) zero_hash zero_hash
                Sample.m0 eq_refl eq_refl) as (r & Hr & Hiff & _).
    rewrite Hr. destruct r; [|reflexivity].
    discriminate (proj1 Hiff eq_refl).
Defined.

Lemma scheme_bytes_roundtrip_witness :
  (exists raw pub' m2,
     publicKey_Bytes (Some 3) (mkMem (pubs Sample.m0 ++ [mkPublicKey (Some Sample.pk12)
                                        (Some Sample.kem_a) zero_hash])
                                 (privs Sample.m0) (disk Sample.m0))
       = Ret (raw, mkMem (pubs Sample.m0 ++ [mkPublicKey (Some Sample.pk12)
                                               (Some Sample.kem_a) zero_hash])
                         (privs Sample.m0) (disk Sample.m0))
     /\ scheme_PublicKeyFromBytes Sample.scheme_a raw
          (mkMem (pubs Sample.m0 ++ [mkPublicKey (Some Sample.pk12)
                                       (Some Sample.kem_a) zero_hash])
                 (privs Sample.m0) (disk Sample.m0))
        = Ret ((pub', None), m2)
     /\ publicKey_Equal pub' (Some 3) m2 = Ret (true, m2))
  /\ (exists priv' m2,
        scheme_PrivateKeyFromBytes Sample.scheme_a [x01; x02; x03; x04]
          (mkMem (pubs Sample.m0)
                 (privs Sample.m0 ++ [mkPrivateKey (Some Sample.kp1234) (Some Sample.kem_a)])
                 (disk Sample.m0))
        = Ret ((priv', None), m2)
        /\ privateKey_Bytes priv' m2 = Ret ([x01; x02; x03; x04], m2)).
Proof.
  destruct (scheme_bytes_roundtrip Sample.scheme_a Sample.kem_a eq_refl
              sample_kem_roundtrips) as [Hpub Hpriv].
  split.
  - apply Hpub. left. exists [x01; x02], Sample.m0. reflexivity.
  - apply (Hpriv (Some 3)); [|reflexivity].
    left. exists [x01; x02; x03; x04], Sample.m0. reflexivity.
Defined.

Lemma publicKey_Sum256_stable_witness :
  exists m1,
    publicKey_Sum256 (Some 0) Sample.m0 = Ret (Sample.digest [x01; x02], m1)
    /\ publicKey_Bytes (Some 0) m1 = Ret ([x01; x02], m1)
    /\ publicKey_Sum256 (Some 0) m1 = Ret (Sample.digest [x01; x02], m1)
    /\ (forall m2, publicKey_Bytes (Some 0) m2 = Ret ([x01; x02], m2) ->
          exists m3, publicKey_Sum256 (Some 0) m2 = Ret (Sample.digest [x01; x02], m3))
    /\ length (Sample.digest [x01; x02]) = 32.
Proof.
  exact (publicKey_Sum256_stable (Some 0) [x01; x02] Sample.m0 eq_refl).
Defined.

Lemma GenerateKeypair_panics_or_complete_witness :
  scheme_GenerateKeypair Sample.scheme_a [] Sample.m0
    = Panic (PanicError (SeecError "EOF"))
  /\ scheme_GenerateKeypair Sample.scheme_a [x01] Sample.m0
       = Panic (PanicError (KemError "short read"))
  /\ (exists g k kp a b,
       Sample.seed [x01; x02; x03; x04] 256 = inl g
       /\ scheme_KEM Sample.scheme_a = Some k
       /\ KEM_GenerateKeypair k g = inl kp
       /\ Some 3 = Some a /\ Some 3 = Some b
       /\ privs (mkMem (pubs Sample.m0 ++ [mkPublicKey (Some Sample.pk12) (Some Sample.kem_a)
                                             (Sample.digest [x01; x02])])
                       (privs Sample.m0 ++ [mkPrivateKey (Some Sample.kp1234)
                                              (Some Sample.kem_a)])
                       (disk Sample.m0)) !! a
            = Some (mkPrivateKey (Some kp) (Some k))
       /\ pubs (mkMem (pubs Sample.m0 ++ [mkPublicKey (Some Sample.pk12) (Some Sample.kem_a)
                                            (Sample.digest [x01; x02])])
                      (privs Sample.m0 ++ [mkPrivateKey (Some Sample.kp1234)
                                             (Some Sample.kem_a)])
                      (disk Sample.m0)) !! b
            = Some (mkPublicKey (Some (kem_Keypair_Public kp)) (Some k)
                      (Sample.digest (kem_PublicKey_Bytes (kem_Keypair_Public kp)))))
  /\ scheme_GenerateKeypair Sample.scheme_a [x01; x02; x03; x04] Sample.m0
       = Ret ((Some 3, Some 3),
              mkMem (pubs Sample.m0 ++ [mkPublicKey (Some Sample.pk12) (Some Sample.kem_a)
                                          (Sample.digest [x01; x02])])
                    (privs Sample.m0 ++ [mkPrivateKey (Some Sample.kp1234)
                                           (Some Sample.kem_a)])
                    (disk Sample.m0)).
Proof.
  split; [|split; [|split]].
  - exact (proj1 (GenerateKeypair_panics_or_complete Sample.scheme_a [] Sample.m0)
             "EOF" eq_refl).
  - exact (proj1 (proj2 (GenerateKeypair_panics_or_complete Sample.scheme_a [x01] Sample.m0))
             [x01] Sample.kem_a "short read" eq_refl eq_refl eq_refl).
  - exact (proj1 (proj2 (proj2 (GenerateKeypair_panics_or_complete Sample.scheme_a
                                  [x01; x02; x03; x04] Sample.m0)))
             (Some 3) (Some 3) _ eq_refl).
  - exact (proj2 (proj2 (proj2 (GenerateKeypair_panics_or_complete Sample.scheme_a
                                  [x01; x02; x03; x04] Sample.m0)))
             [x01; x02; x03; x04] Sample.kem_a Sample.kp1234 eq_refl eq_refl eq_refl).
Defined.

Lemma privateKey_Bytes_or_panic_witness :
  privateKey_Bytes (Some 0) Sample.m0 = Ret ([x01; x02; x03; x04], Sample.m0)
  /\ privateKey_Bytes (Some 2) Sample.m0 = Panic (PanicError (KemError "marshal failed")).
Proof.
  split.
  - exact (proj1 (privateKey_Bytes_or_panic 0 Sample.kp1234 (Some Sample.kem_a)
                    Sample.m0 eq_refl) _ eq_refl).
  - exact (proj1 (proj2 (privateKey_Bytes_or_panic 2 Sample.kp_broken (Some Sample.kem_a)
                           Sample.m0 eq_refl)) _ eq_refl).
Defined.

Lemma UnmarshalText_decodes_then_parses_witness :
  (scheme_UnmarshalTextPublicKey Sample.scheme_a [x61; x21] Sample.m0
     = Ret ((None, Some (CorruptInputError 1)), Sample.m0)
   /\ scheme_UnmarshalTextPrivateKey Sample.scheme_a [x61; x21] Sample.m0
        = Ret ((None, Some (CorruptInputError 1)), Sample.m0))
  /\ (scheme_UnmarshalTextPublicKey Sample.scheme_a [x61; x62] Sample.m0
        = scheme_PublicKeyFromBytes Sample.scheme_a [x61; x62] Sample.m0
      /\ scheme_UnmarshalTextPrivateKey Sample.scheme_a [x61; x62] Sample.m0
           = scheme_PrivateKeyFromBytes Sample.scheme_a [x61; x62] Sample.m0)
  /\ ((None : ptr) = None
      /\ (exists msg, KemError "invalid public key size" = KemError msg)
      /\ forall off, KemError "invalid public key size" <> CorruptInputError off).
Proof.
  split; [|split].
  - exact (proj1 (UnmarshalText_decodes_then_parses Sample.scheme_a [x61; x21] Sample.m0)
             1%N eq_refl).
  - exact (proj1 (proj2 (UnmarshalText_decodes_then_parses Sample.scheme_a [x61; x62]
                           Sample.m0)) [x61; x62] eq_refl).
  - apply (proj2 (proj2 (UnmarshalText_decodes_then_parses Sample.scheme_a [] Sample.m0))
             [x01] None _ Sample.m0).
    left. reflexivity.
Defined.

Lemma FromBytes_rejected_keeps_key_witness :
  (publicKey_FromBytes (Some 0) [x01] Sample.m0
     = Ret (Some (KemError "invalid public key size"), Sample.m0)
   /\ publicKey_FromBytes (Some 0) [x05; x06] Sample.m0
        = Ret (None, mkMem (<[0 := mkPublicKey (Some (mkKemPublicKey [x05; x06]))
                                     (Some Sample.kem_a) zero_hash]> (pubs Sample.m0))
                           (privs Sample.m0) (disk Sample.m0)))
  /\ (privateKey_FromBytes (Some 0) [x01] Sample.m0
        = Ret (Some (KemError "invalid private key size"), Sample.m0)
      /\ privateKey_FromBytes (Some 0) [x05; x06; x07; x08] Sample.m0
           = Ret (None, mkMem (pubs Sample.m0)
                              (<[0 := mkPrivateKey
                                        (Some (Sample.keypair_of [x05; x06; x07; x08]))
                                        (Some Sample.kem_a)]> (privs Sample.m0))
                              (disk Sample.m0))).
Proof.
  split.
  - destruct (proj1 FromBytes_rejected_keeps_key 0 _ Sample.kem_a [x01] Sample.m0
                eq_refl eq_refl) as [Hrej _].
    destruct (proj1 FromBytes_rejected_keeps_key 0 _ Sample.kem_a [x05; x06] Sample.m0
                eq_refl eq_refl) as [_ Hacc].
    split; [exact (Hrej _ eq_refl) | exact (Hacc _ eq_refl)].
  - destruct (proj2 FromBytes_rejected_keeps_key 0 _ Sample.kem_a [x01] Sample.m0
                eq_refl eq_refl) as [Hrej _].
    destruct (proj2 FromBytes_rejected_keeps_key 0 _ Sample.kem_a [x05; x06; x07; x08]
                Sample.m0 eq_refl eq_refl) as [_ Hacc].
    split; [exact (Hrej _ eq_refl) | exact (Hacc _ eq_refl)].
Defined.

(** * Further properties of kem.go *)

Section KeyLayer.
Context `{Ext : Externals}.

Lemma bind_Panic_eq {A B} (c : M A) (k : A -> M B) m v :
  c m = Panic v -> bind c k m = Panic v.
Proof. unfold bind. intros ->. reflexivity. Qed.

(** ** Upper-casing *)

Lemma ToUpper_public_suffix n :
  ToUpper (n ++ " PUBLIC KEY") = ToUpper n ++ " PUBLIC KEY".
Proof.
  rewrite ToUpper_app_ascii by reflexivity.
  rewrite (ToUpper_on_ascii " PUBLIC KEY") by reflexivity. reflexivity.
Qed.

Lemma ToUpper_private_suffix n :
  ToUpper (n ++ " PRIVATE KEY") = ToUpper n ++ " PRIVATE KEY".
Proof.
  rewrite ToUpper_app_ascii by reflexivity.
  rewrite (ToUpper_on_ascii " PRIVATE KEY") by reflexivity. reflexivity.
Qed.

Lemma public_tag_upper n :
  ToUpper (ToUpper n ++ " PUBLIC KEY") = ToUpper n ++ " PUBLIC KEY".
Proof. rewrite ToUpper_public_suffix, ToUpper_twice. reflexivity. Qed.

Lemma private_tag_upper n :
  ToUpper (ToUpper n ++ " PRIVATE KEY") = ToUpper n ++ " PRIVATE KEY".
Proof. rewrite ToUpper_private_suffix, ToUpper_twice. reflexivity. Qed.

(** ** Loading from a PEM file: the other outcomes *)

Lemma ReadFile_err f msg m :
  os_ReadFile (disk m) f = inr msg -> ReadFile f m = Ret (inr (OsError msg), m).
Proof. unfold ReadFile. intros ->. reflexivity. Qed.

Lemma scheme_PublicKeyFromPemFile_eq s k f m :
  scheme_KEM s = Some k ->
  scheme_PublicKeyFromPemFile s f m =
    match os_ReadFile (disk m) f with
    | inr msg => Ret ((None, Some (OsError msg)), m)
    | inl buf =>
        match pem_Decode buf with
        | None => Ret ((None, Some (err_decode f)), m)
        | Some (blk, _) =>
            if String.eqb (ToUpper (Type_ blk)) (ToUpper (KEM_String k) ++ " PUBLIC KEY")
            then scheme_PublicKeyFromBytes s (Bytes_ blk) m
            else Ret ((None, Some (err_wrong_type (Type_ blk)
                                     (ToUpper (KEM_String k) ++ " PUBLIC KEY"))), m)
        end
    end.
Proof.
  intros Hk. unfold scheme_PublicKeyFromPemFile. rewrite Hk.
  cbv [deref]. unfold bind at 1. cbv [ret].
  destruct (os_ReadFile (disk m) f) as [buf|msg] eqn:Hr.
  - rewrite (bind_Ret _ _ _ _ _ (ReadFile_ok _ _ _ Hr)).
    destruct (pem_Decode buf) as [[blk rest]|]; [|reflexivity].
    destruct (String.eqb _ _); reflexivity.
  - rewrite (bind_Ret _ _ _ _ _ (ReadFile_err _ _ _ Hr)). reflexivity.
Qed.

Lemma scheme_PrivateKeyFromPemFile_eq s k f m :
  scheme_KEM s = Some k ->
  scheme_PrivateKeyFromPemFile s f m =
    match os_ReadFile (disk m) f with
    | inr msg => Ret ((None, Some (OsError msg)), m)
    | inl buf =>
        match pem_Decode buf with
        | None => Ret ((None, Some (err_decode f)), m)
        | Some (blk, _) =>
            if String.eqb (ToUpper (Type_ blk)) (ToUpper (KEM_String k) ++ " PRIVATE KEY")
            then scheme_PrivateKeyFromBytes s (Bytes_ blk) m
            else Ret ((None, Some (err_wrong_type (Type_ blk)
                                     (ToUpper (KEM_String k) ++ " PRIVATE KEY"))), m)
        end
    end.
Proof.
  intros Hk. unfold scheme_PrivateKeyFromPemFile. rewrite Hk.
  cbv [deref]. unfold bind at 1. cbv [ret].
  destruct (os_ReadFile (disk m) f) as [buf|msg] eqn:Hr.
  - rewrite (bind_Ret _ _ _ _ _ (ReadFile_ok _ _ _ Hr)).
    destruct (pem_Decode buf) as [[blk rest]|]; [|reflexivity].
    destruct (String.eqb _ _); reflexivity.
  - rewrite (bind_Ret _ _ _ _ _ (ReadFile_err _ _ _ Hr)). reflexivity.
Qed.

Lemma publicKey_FromPEMFile_eq a pk k h f m :
  pubs m !! a = Some (mkPublicKey pk (Some k) h) ->
  publicKey_FromPEMFile (Some a) f m =
    match os_ReadFile (disk m) f with
    | inr msg => Ret (Some (OsError msg), m)
    | inl buf =>
        match pem_Decode buf with
        | None => Ret (Some (err_decode f), m)
        | Some (blk, _) =>
            if String.eqb (ToUpper (Type_ blk)) (ToUpper (KEM_String k) ++ " PUBLIC KEY")
            then publicKey_FromBytes (Some a) (Bytes_ blk) m
            else Ret (Some (err_wrong_type (Type_ blk)
                              (ToUpper (KEM_String k) ++ " PUBLIC KEY")), m)
        end
    end.
Proof.
  intros Ha. unfold publicKey_FromPEMFile.
  rewrite (bind_Ret _ _ _ _ _ (publicKey_KeyType_Some _ _ _ _ _ Ha)).
  destruct (os_ReadFile (disk m) f) as [buf|msg] eqn:Hr.
  - rewrite (bind_Ret _ _ _ _ _ (ReadFile_ok _ _ _ Hr)).
    destruct (pem_Decode buf) as [[blk rest]|]; [|reflexivity].
    destruct (String.eqb _ _); reflexivity.
  - rewrite (bind_Ret _ _ _ _ _ (ReadFile_err _ _ _ Hr)). reflexivity.
Qed.

Lemma privateKey_FromPEMFile_eq a kp k f m :
  privs m !! a = Some (mkPrivateKey kp (Some k)) ->
  privateKey_FromPEMFile (Some a) f m =
    match os_ReadFile (disk m) f with
    | inr msg => Ret (Some (OsError msg), m)
    | inl buf =>
        match pem_Decode buf with
        | None => Ret (Some (err_decode f), m)
        | Some (blk, _) =>
            if String.eqb (ToUpper (Type_ blk)) (ToUpper (KEM_String k) ++ " PRIVATE KEY")
            then privateKey_FromBytes (Some a) (Bytes_ blk) m
            else Ret (Some (err_wrong_type (Type_ blk)
                              (ToUpper (KEM_String k) ++ " PRIVATE KEY")), m)
        end
    end.
Proof.
  intros Ha. unfold privateKey_FromPEMFile.
  rewrite (bind_Ret _ _ _ _ _ (privateKey_KeyType_Some _ _ _ _ Ha)).
  destruct (os_ReadFile (disk m) f) as [buf|msg] eqn:Hr.
  - rewrite (bind_Ret _ _ _ _ _ (ReadFile_ok _ _ _ Hr)).
    destruct (pem_Decode buf) as [[blk rest]|]; [|reflexivity].
    destruct (String.eqb _ _); reflexivity.
  - rewrite (bind_Ret _ _ _ _ _ (ReadFile_err _ _ _ Hr)). reflexivity.
Qed.

(** A file that cannot be read makes each of the four PEM loaders return
    the error of [os.ReadFile] itself and no key; a file that holds no
    PEM block makes them return the error "failed to decode PEM file"
    followed by the path.  In both cases the memory is as before. *)
Theorem FromPemFile_unreadable_or_no_block s k f m a a' pk h kp :
  scheme_KEM s = Some k ->
  pubs m !! a = Some (mkPublicKey pk (Some k) h) ->
  privs m !! a' = Some (mkPrivateKey kp (Some k)) ->
  (forall msg, os_ReadFile (disk m) f = inr msg ->
     scheme_PublicKeyFromPemFile s f m = Ret ((None, Some (OsError msg)), m)
     /\ scheme_PrivateKeyFromPemFile s f m = Ret ((None, Some (OsError msg)), m)
     /\ publicKey_FromPEMFile (Some a) f m = Ret (Some (OsError msg), m)
     /\ privateKey_FromPEMFile (Some a') f m = Ret (Some (OsError msg), m))
  /\ (forall buf, os_ReadFile (disk m) f = inl buf -> pem_Decode buf = None ->
        let e := Errorf ("failed to decode PEM file " ++ f) in
        scheme_PublicKeyFromPemFile s f m = Ret ((None, Some e), m)
        /\ scheme_PrivateKeyFromPemFile s f m = Ret ((None, Some e), m)
        /\ publicKey_FromPEMFile (Some a) f m = Ret (Some e, m)
        /\ privateKey_FromPEMFile (Some a') f m = Ret (Some e, m)).
Proof.
  intros Hk Ha Ha'.
  rewrite (scheme_PublicKeyFromPemFile_eq _ _ _ _ Hk),
          (scheme_PrivateKeyFromPemFile_eq _ _ _ _ Hk),
          (publicKey_FromPEMFile_eq _ _ _ _ _ _ Ha),
          (privateKey_FromPEMFile_eq _ _ _ _ _ Ha').
  split.
  - intros msg ->. repeat split.
  - intros buf -> ->. repeat split.
Qed.

(** The tag check ignores letter case: when the decoded block's tag is
    the algorithm name followed by " PUBLIC KEY" (resp. " PRIVATE KEY")
    up to the case of its letters, the public (resp. private) loaders go
    on to [FromBytes] on the block's bytes. *)
Theorem FromPemFile_tag_case_insensitive s k f buf blk rest m a a' pk h kp :
  scheme_KEM s = Some k ->
  pubs m !! a = Some (mkPublicKey pk (Some k) h) ->
  privs m !! a' = Some (mkPrivateKey kp (Some k)) ->
  os_ReadFile (disk m) f = inl buf ->
  pem_Decode buf = Some (blk, rest) ->
  (ToUpper (Type_ blk) = ToUpper (KEM_String k ++ " PUBLIC KEY") ->
     scheme_PublicKeyFromPemFile s f m = scheme_PublicKeyFromBytes s (Bytes_ blk) m
     /\ publicKey_FromPEMFile (Some a) f m = publicKey_FromBytes (Some a) (Bytes_ blk) m)
  /\ (ToUpper (Type_ blk) = ToUpper (KEM_String k ++ " PRIVATE KEY") ->
        scheme_PrivateKeyFromPemFile s f m = scheme_PrivateKeyFromBytes s (Bytes_ blk) m
        /\ privateKey_FromPEMFile (Some a') f m
             = privateKey_FromBytes (Some a') (Bytes_ blk) m).
Proof.
  intros Hk Ha Ha' Hr Hd.
  rewrite (scheme_PublicKeyFromPemFile_eq _ _ _ _ Hk),
          (scheme_PrivateKeyFromPemFile_eq _ _ _ _ Hk),
          (publicKey_FromPEMFile_eq _ _ _ _ _ _ Ha),
          (privateKey_FromPEMFile_eq _ _ _ _ _ Ha'), Hr, Hd.
  rewrite ToUpper_public_suffix, ToUpper_private_suffix.
  split; intros ->; rewrite String.eqb_refl; split; reflexivity.
Qed.

(** ** Round trip through a PEM file *)

Lemma WriteFile_ok f data perm d m :
  os_WriteFile (disk m) f data perm = (d, None) ->
  WriteFile f data perm m = Ret (None, mkMem (pubs m) (privs m) d).
Proof. unfold WriteFile. intros ->. reflexivity. Qed.

Lemma not_all_zero b : ~ Forall (eq x00) b -> CtIsZero b = false.
Proof.
  intros H. destruct (CtIsZero b) eqn:E; [|reflexivity].
  exfalso. apply H, CtIsZero_spec, E.
Qed.

(** A public key whose bytes are not all zero, written with [ToPEMFile]
    and loaded back by the scheme of the same KEM, gives a new key that
    is [Equal] to the one written.  This needs the write to succeed, the
    file to read back as written, [pem.Decode] to undo
    [pem.EncodeToMemory] on this block and the KEM to accept the key's
    bytes again with the same serialization. *)
Theorem publicKey_PEM_file_roundtrip s k a pk h f m d rest pk' :
  scheme_KEM s = Some k ->
  pubs m !! a = Some (mkPublicKey (Some pk) (Some k) h) ->
  ~ Forall (eq x00) (kem_PublicKey_Bytes pk) ->
  let blk := mkBlock (ToUpper (KEM_String k) ++ " PUBLIC KEY") (kem_PublicKey_Bytes pk) in
  os_WriteFile (disk m) f (pem_EncodeToMemory blk) mode_0600 = (d, None) ->
  os_ReadFile d f = inl (pem_EncodeToMemory blk) ->
  pem_Decode (pem_EncodeToMemory blk) = Some (blk, rest) ->
  KEM_ParsePublicKey k (kem_PublicKey_Bytes pk) = inl pk' ->
  kem_PublicKey_Bytes pk' = kem_PublicKey_Bytes pk ->
  exists m1 b m2,
    publicKey_ToPEMFile (Some a) f m = Ret (None, m1)
    /\ scheme_PublicKeyFromPemFile s f m1 = Ret ((Some b, None), m2)
    /\ b <> a
    /\ publicKey_Equal (Some b) (Some a) m2 = Ret (true, m2)
    /\ publicKey_KeyType (Some b) m2
         = Ret (ToUpper (KEM_String k) ++ " PUBLIC KEY", m2).
Proof.
  intros Hk Ha Hnz blk Hw Hr Hd Hp Hsame.
  exists (mkMem (pubs m) (privs m) d), (length (pubs m)).
  eexists. split.
  - rewrite (publicKey_ToPEMFile_Some _ _ _ _ _ _ Ha), (not_all_zero _ Hnz).
    apply WriteFile_ok. exact Hw.
  - rewrite (scheme_PublicKeyFromPemFile_eq _ _ _ _ Hk). simpl disk.
    rewrite Hr, Hd. simpl Type_. rewrite public_tag_upper, String.eqb_refl.
    rewrite (scheme_PublicKeyFromBytes_eq _ _ _ _ Hk). simpl Bytes_. rewrite Hp.
    split; [reflexivity|]. split.
    { apply lookup_lt_Some in Ha. lia. }
    split.
    + erewrite publicKey_Equal_Some.
      * f_equal. f_equal. apply bytes_Equal_spec. symmetry. exact Hsame.
      * simpl. apply list_lookup_middle. reflexivity.
      * simpl. apply lookup_app_l_Some. exact Ha.
    + eapply publicKey_KeyType_Some. simpl. apply list_lookup_middle. reflexivity.
Qed.

(** The same for a private key: loaded back, the new key's [Bytes] are
    the bytes that were written, when the KEM parses them into a key pair
    that serializes to them again. *)
Theorem privateKey_PEM_file_roundtrip s k a kp raw f m d rest kp' :
  scheme_KEM s = Some k ->
  privs m !! a = Some (mkPrivateKey (Some kp) (Some k)) ->
  kem_Keypair_MarshalBinary kp = inl raw ->
  ~ Forall (eq x00) raw ->
  let blk := mkBlock (ToUpper (KEM_String k) ++ " PRIVATE KEY") raw in
  os_WriteFile (disk m) f (pem_EncodeToMemory blk) mode_0600 = (d, None) ->
  os_ReadFile d f = inl (pem_EncodeToMemory blk) ->
  pem_Decode (pem_EncodeToMemory blk) = Some (blk, rest) ->
  KEM_ParsePrivateKey k raw = inl kp' ->
  kem_Keypair_MarshalBinary kp' = inl raw ->
  exists m1 b m2,
    privateKey_ToPEMFile (Some a) f m = Ret (None, m1)
    /\ scheme_PrivateKeyFromPemFile s f m1 = Ret ((Some b, None), m2)
    /\ b <> a
    /\ privateKey_Bytes (Some b) m2 = Ret (raw, m2)
    /\ privateKey_Bytes (Some a) m2 = Ret (raw, m2).
Proof.
  intros Hk Ha Hm Hnz blk Hw Hr Hd Hp Hsame.
  exists (mkMem (pubs m) (privs m) d), (length (privs m)).
  eexists. split.
  - rewrite (privateKey_ToPEMFile_Some _ _ _ _ _ _ Ha Hm), (not_all_zero _ Hnz).
    apply WriteFile_ok. exact Hw.
  - rewrite (scheme_PrivateKeyFromPemFile_eq _ _ _ _ Hk). simpl disk.
    rewrite Hr, Hd. simpl Type_. rewrite private_tag_upper, String.eqb_refl.
    rewrite (scheme_PrivateKeyFromBytes_eq _ _ _ _ Hk). simpl Bytes_. rewrite Hp.
    split; [reflexivity|]. split.
    { apply lookup_lt_Some in Ha. lia. }
    split.
    + erewrite privateKey_Bytes_Some.
      2:{ simpl. apply list_lookup_middle. reflexivity. }
      rewrite Hsame. reflexivity.
    + erewrite privateKey_Bytes_Some.
      2:{ simpl. apply lookup_app_l_Some. exact Ha. }
      rewrite Hm. reflexivity.
Qed.

(** ** Deriving the public key *)

Lemma publicKey_Sum256_Some a pk k h m :
  pubs m !! a = Some (mkPublicKey (Some pk) k h) ->
  publicKey_Sum256 (Some a) m =
    Ret (blake2b_Sum256 (kem_PublicKey_Bytes pk),
         mkMem (<[a := mkPublicKey (Some pk) k (blake2b_Sum256 (kem_PublicKey_Bytes pk))]>
                  (pubs m))
               (privs m) (disk m)).
Proof.
  intros Ha. unfold publicKey_Sum256.
  rewrite (bind_Ret _ _ _ _ _ (publicKey_Bytes_Some _ _ _ _ _ Ha)).
  rewrite (bind_Ret _ _ _ _ _ (load_pub_Some _ _ _ Ha)).
  cbv [bind store_pub load_pub ret pubs pub_publicKey pub_KEM pub_hash].
  rewrite list_lookup_insert_eq; [reflexivity|].
  apply lookup_lt_Some in Ha. exact Ha.
Qed.

(** [PublicKey()] can be called again and again: on a private key that
    holds a key pair, two calls return two different new structs with
    the bytes of the key pair's public part, [Equal] to each other; the
    private keys and the file system are as before; and [Sum256] on the
    derived key returns the digest stored at derivation without changing
    the memory. *)
Theorem privateKey_PublicKey_repeatable a kp k m :
  privs m !! a = Some (mkPrivateKey (Some kp) k) ->
  let raw := kem_PublicKey_Bytes (kem_Keypair_Public kp) in
  exists p1 p2 m1 m2,
    privateKey_PublicKey (Some a) m = Ret (Some p1, m1)
    /\ privateKey_PublicKey (Some a) m1 = Ret (Some p2, m2)
    /\ p1 <> p2
    /\ pubs m !! p1 = None /\ pubs m1 !! p2 = None
    /\ privs m2 = privs m /\ disk m2 = disk m
    /\ publicKey_Bytes (Some p1) m2 = Ret (raw, m2)
    /\ publicKey_Bytes (Some p2) m2 = Ret (raw, m2)
    /\ publicKey_Equal (Some p1) (Some p2) m2 = Ret (true, m2)
    /\ publicKey_Sum256 (Some p1) m2 = Ret (blake2b_Sum256 raw, m2).
Proof.
  intros Ha raw.
  set (o := mkPublicKey (Some (kem_Keypair_Public kp)) k (blake2b_Sum256 raw)).
  exists (length (pubs m)), (length (pubs m ++ [o])%list).
  exists (mkMem (pubs m ++ [o])%list (privs m) (disk m)).
  exists (mkMem ((pubs m ++ [o]) ++ [o])%list (privs m) (disk m)).
  assert (H1 : ((pubs m ++ [o]) ++ [o])%list !! length (pubs m) = Some o).
  { apply lookup_app_l_Some, list_lookup_middle. reflexivity. }
  assert (H2 : ((pubs m ++ [o]) ++ [o])%list !! length (pubs m ++ [o])%list = Some o).
  { apply list_lookup_middle. reflexivity. }
  split; [exact (privateKey_PublicKey_Some _ _ _ _ Ha)|].
  split; [exact (privateKey_PublicKey_Some _ _ _ (mkMem _ _ _) Ha)|].
  split; [rewrite length_app; simpl; lia|].
  split; [apply lookup_ge_None; lia|].
  split; [apply lookup_ge_None; simpl; lia|].
  split; [reflexivity|]. split; [reflexivity|].
  split; [exact (publicKey_Bytes_Some _ _ _ _ (mkMem _ _ _) H1)|].
  split; [exact (publicKey_Bytes_Some _ _ _ _ (mkMem _ _ _) H2)|].
  split.
  - rewrite (publicKey_Equal_Some _ _ _ _ _ _ _ _ (mkMem _ _ _) H1 H2).
    f_equal. f_equal. apply bytes_Equal_spec. reflexivity.
  - rewrite (publicKey_Sum256_Some _ _ _ _ (mkMem _ _ _) H1). simpl.
    fold raw. fold o. rewrite (list_insert_id _ _ _ H1). reflexivity.
Qed.

(** ** Equal *)

Lemma bytes_Equal_sym a b : bytes_Equal a b = bytes_Equal b a.
Proof.
  destruct (bytes_Equal a b) eqn:E1, (bytes_Equal b a) eqn:E2; try reflexivity.
  - apply bytes_Equal_spec in E1. subst b.
    rewrite (proj2 (bytes_Equal_spec a a) eq_refl) in E2. discriminate.
  - apply bytes_Equal_spec in E2. subst b.
    rewrite (proj2 (bytes_Equal_spec a a) eq_refl) in E1. discriminate.
Qed.

(** On public keys that hold a parsed value, [Equal] is an equivalence:
    a key is equal to itself, the order of the two keys does not matter,
    and two keys equal to a third are equal. *)
Theorem publicKey_Equal_equivalence a b c pka pkb pkc ka kb kc ha hb hc m :
  pubs m !! a = Some (mkPublicKey (Some pka) ka ha) ->
  pubs m !! b = Some (mkPublicKey (Some pkb) kb hb) ->
  pubs m !! c = Some (mkPublicKey (Some pkc) kc hc) ->
  publicKey_Equal (Some a) (Some a) m = Ret (true, m)
  /\ publicKey_Equal (Some a) (Some b) m = publicKey_Equal (Some b) (Some a) m
  /\ (publicKey_Equal (Some a) (Some b) m = Ret (true, m) ->
      publicKey_Equal (Some b) (Some c) m = Ret (true, m) ->
      publicKey_Equal (Some a) (Some c) m = Ret (true, m)).
Proof.
  intros Ha Hb Hc.
  rewrite (publicKey_Equal_Some _ _ _ _ _ _ _ _ _ Ha Ha),
          (publicKey_Equal_Some _ _ _ _ _ _ _ _ _ Ha Hb),
          (publicKey_Equal_Some _ _ _ _ _ _ _ _ _ Hb Ha),
          (publicKey_Equal_Some _ _ _ _ _ _ _ _ _ Hb Hc),
          (publicKey_Equal_Some _ _ _ _ _ _ _ _ _ Ha Hc).
  split; [|split].
  - f_equal. f_equal. apply bytes_Equal_spec. reflexivity.
  - rewrite bytes_Equal_sym. reflexivity.
  - intros [= H1] [= H2]. apply bytes_Equal_spec in H1, H2.
    f_equal. f_equal. apply bytes_Equal_spec. congruence.
Qed.

(** Keys that are [Equal] have the same [Sum256]: when [Equal] returns
    true on two public keys, [Sum256] on the one and then on the other
    returns the same digest. *)
Theorem Equal_keys_same_Sum256 p q m :
  publicKey_Equal p q m = Ret (true, m) ->
  exists h m1 m2,
    publicKey_Sum256 p m = Ret (h, m1)
    /\ publicKey_Sum256 q m1 = Ret (h, m2)
    /\ length h = 32.
Proof.
  intros HE. unfold publicKey_Equal in HE.
  destruct (publicKey_Bytes q m) as [[bq mq]|] eqn:Hq;
    [|rewrite (bind_Panic_eq _ _ _ _ Hq) in HE; discriminate].
  destruct (publicKey_Bytes_inv _ _ _ _ Hq) as (-> & b & pkb & kb & hb & -> & Hb & ->).
  rewrite (bind_Ret _ _ _ _ _ Hq) in HE.
  destruct (publicKey_Bytes p m) as [[bp mp]|] eqn:Hp;
    [|rewrite (bind_Panic_eq _ _ _ _ Hp) in HE; discriminate].
  destruct (publicKey_Bytes_inv _ _ _ _ Hp) as (-> & a & pka & ka & ha & -> & Ha & ->).
  rewrite (bind_Ret _ _ _ _ _ Hp) in HE.
  injection HE as HE. apply bytes_Equal_spec in HE.
  pose proof (lookup_lt_Some _ _ _ Ha) as Hlt.
  destruct (decide (a = b)) as [->|Hab].
  - rewrite Ha in Hb. injection Hb as <- <- <-.
    eexists _, _, _. split; [exact (publicKey_Sum256_Some _ _ _ _ _ Ha)|].
    split; [|apply blake2b_Sum256_size].
    apply publicKey_Sum256_Some with (h := blake2b_Sum256 (kem_PublicKey_Bytes pka)).
    simpl. apply list_lookup_insert_eq. exact Hlt.
  - eexists _, _, _. split; [exact (publicKey_Sum256_Some _ _ _ _ _ Ha)|].
    split; [|apply blake2b_Sum256_size].
    rewrite <- HE. apply publicKey_Sum256_Some with (h := hb).
    simpl. rewrite list_lookup_insert_ne by exact Hab. exact Hb.
Qed.

(** ** What the scheme returns *)

Lemma mem_extends_refl m : mem_extends m m.
Proof. repeat split; reflexivity. Qed.

Lemma mem_extends_pub m o :
  mem_extends m (mkMem (pubs m ++ [o]) (privs m) (disk m)).
Proof. repeat split; simpl; [apply prefix_app_r|]; reflexivity. Qed.

Lemma mem_extends_priv m o :
  mem_extends m (mkMem (pubs m) (privs m ++ [o]) (disk m)).
Proof. repeat split; simpl; [|apply prefix_app_r]; reflexivity. Qed.

Lemma scheme_PublicKeyFromBytes_shape s b m r m1 :
  scheme_PublicKeyFromBytes s b m = Ret (r, m1) ->
  public_or_error s m m1 r /\ mem_extends m m1.
Proof.
  destruct (scheme_KEM s) as [k|] eqn:Hk.
  - rewrite (scheme_PublicKeyFromBytes_eq _ _ _ _ Hk).
    destruct (KEM_ParsePublicKey k b) as [pk|e]; intros [= <- <-].
    + split; [|apply mem_extends_pub]. left. exists (length (pubs m)), pk.
      split; [reflexivity|]. split; [apply lookup_ge_None; lia|].
      simpl. rewrite Hk. apply list_lookup_middle. reflexivity.
    + split; [|apply mem_extends_refl]. right. eauto.
  - rewrite (proj1 (scheme_FromBytes_nil s b m Hk)). discriminate.
Qed.

Lemma scheme_PrivateKeyFromBytes_shape s b m r m1 :
  scheme_PrivateKeyFromBytes s b m = Ret (r, m1) ->
  private_or_error s m m1 r /\ mem_extends m m1.
Proof.
  destruct (scheme_KEM s) as [k|] eqn:Hk.
  - rewrite (scheme_PrivateKeyFromBytes_eq _ _ _ _ Hk).
    destruct (KEM_ParsePrivateKey k b) as [kp|e]; intros [= <- <-].
    + split; [|apply mem_extends_priv]. left. exists (length (privs m)), kp.
      split; [reflexivity|]. split; [apply lookup_ge_None; lia|].
      simpl. rewrite Hk. apply list_lookup_middle. reflexivity.
    + split; [|apply mem_extends_refl]. right. eauto.
  - rewrite (proj2 (scheme_FromBytes_nil s b m Hk)). discriminate.
Qed.

Lemma scheme_FromPemFile_nil s f m :
  scheme_KEM s = None ->
  scheme_PublicKeyFromPemFile s f m = Panic NilDereference
  /\ scheme_PrivateKeyFromPemFile s f m = Panic NilDereference.
Proof.
  intros Hk. unfold scheme_PublicKeyFromPemFile, scheme_PrivateKeyFromPemFile.
  rewrite Hk. split; reflexivity.
Qed.

(** Every constructor of the scheme that returns a key and an error
    returns exactly one of them: with a nil error comes a pointer to a
    struct that was not allocated before and holds a parsed key and the
    scheme's KEM; with an error comes a nil pointer, and the memory is
    as before.  In neither case is an existing key or the file system
    changed. *)
Theorem scheme_returns_key_or_error s m r m1 :
  (forall b, scheme_PublicKeyFromBytes s b m = Ret (r, m1)
             \/ scheme_UnmarshalBinaryPublicKey s b m = Ret (r, m1)
             \/ scheme_UnmarshalTextPublicKey s b m = Ret (r, m1) ->
     public_or_error s m m1 r /\ mem_extends m m1)
  /\ (forall f, scheme_PublicKeyFromPemFile s f m = Ret (r, m1) ->
        public_or_error s m m1 r /\ mem_extends m m1)
  /\ (forall b, scheme_PrivateKeyFromBytes s b m = Ret (r, m1)
                \/ scheme_UnmarshalTextPrivateKey s b m = Ret (r, m1) ->
        private_or_error s m m1 r /\ mem_extends m m1)
  /\ (forall f, scheme_PrivateKeyFromPemFile s f m = Ret (r, m1) ->
        private_or_error s m m1 r /\ mem_extends m m1).
Proof.
  split; [|split; [|split]].
  - intros b [H|[H|H]].
    + exact (scheme_PublicKeyFromBytes_shape _ _ _ _ _ H).
    + exact (scheme_PublicKeyFromBytes_shape _ _ _ _ _ H).
    + unfold scheme_UnmarshalTextPublicKey in H.
      destruct (base64_StdEncoding_DecodeString _) as [raw|off].
      * exact (scheme_PublicKeyFromBytes_shape _ _ _ _ _ H).
      * injection H as <- <-. split; [|apply mem_extends_refl]. right. eauto.
  - intros f H. destruct (scheme_KEM s) as [k|] eqn:Hk.
    + rewrite (scheme_PublicKeyFromPemFile_eq _ _ _ _ Hk) in H.
      destruct (os_ReadFile (disk m) f) as [buf|msg].
      * destruct (pem_Decode buf) as [[blk rest]|].
        -- destruct (String.eqb _ _).
           ++ exact (scheme_PublicKeyFromBytes_shape _ _ _ _ _ H).
           ++ injection H as <- <-. split; [|apply mem_extends_refl]. right. eauto.
        -- injection H as <- <-. split; [|apply mem_extends_refl]. right. eauto.
      * injection H as <- <-. split; [|apply mem_extends_refl]. right. eauto.
    + rewrite (proj1 (scheme_FromPemFile_nil s f m Hk)) in H. discriminate.
  - intros b [H|H].
    + exact (scheme_PrivateKeyFromBytes_shape _ _ _ _ _ H).
    + unfold scheme_UnmarshalTextPrivateKey in H.
      destruct (base64_StdEncoding_DecodeString _) as [raw|off].
      * exact (scheme_PrivateKeyFromBytes_shape _ _ _ _ _ H).
      * injection H as <- <-. split; [|apply mem_extends_refl]. right. eauto.
  - intros f H. destruct (scheme_KEM s) as [k|] eqn:Hk.
    + rewrite (scheme_PrivateKeyFromPemFile_eq _ _ _ _ Hk) in H.
      destruct (os_ReadFile (disk m) f) as [buf|msg].
      * destruct (pem_Decode buf) as [[blk rest]|].
        -- destruct (String.eqb _ _).
           ++ exact (scheme_PrivateKeyFromBytes_shape _ _ _ _ _ H).
           ++ injection H as <- <-. split; [|apply mem_extends_refl]. right. eauto.
        -- injection H as <- <-. split; [|apply mem_extends_refl]. right. eauto.
      * injection H as <- <-. split; [|apply mem_extends_refl]. right. eauto.
    + rewrite (proj2 (scheme_FromPemFile_nil s f m Hk)) in H. discriminate.
Qed.

(** ** Which methods write what *)

(** Unfold a method applied to a memory in [H] and split on every test
    it makes, leaving the returning paths. *)
Ltac paths H :=
  cbv [publicKey_KeyType publicKey_Bytes publicKey_Equal publicKey_MarshalBinary
       publicKey_FromBytes publicKey_UnmarshalBinary publicKey_FromPEMFile
       publicKey_ToPEMFile publicKey_Sum256
       privateKey_KeyType privateKey_Bytes privateKey_MarshalBinary
       privateKey_FromBytes privateKey_UnmarshalBinary privateKey_FromPEMFile
       privateKey_ToPEMFile privateKey_PublicKey
       bind ret panic deref load_pub load_priv store_pub store_priv
       alloc_pub alloc_priv ReadFile WriteFile] in H;
  repeat (match type of H with
          | context [match ?x with _ => _ end] =>
              lazymatch x with
              | context [match _ with _ => _ end] => fail
              | _ => destruct x eqn:?
              end
          end;
          cbv beta iota in H; try discriminate H).

(** The methods that only read a key return with the memory exactly as
    it was: [KeyType], [Bytes] and [MarshalBinary] of both key types and
    [Equal].  [MarshalBinary] returns the result of [Bytes] and its
    error result is always nil. *)
Theorem readers_leave_memory m m' :
  (forall p t, publicKey_KeyType p m = Ret (t, m') -> m' = m)
  /\ (forall p b, publicKey_Bytes p m = Ret (b, m') -> m' = m)
  /\ (forall p q r, publicKey_Equal p q m = Ret (r, m') -> m' = m)
  /\ (forall p d e, publicKey_MarshalBinary p m = Ret ((d, e), m') ->
        m' = m /\ e = None /\ publicKey_Bytes p m = Ret (d, m))
  /\ (forall p t, privateKey_KeyType p m = Ret (t, m') -> m' = m)
  /\ (forall p b, privateKey_Bytes p m = Ret (b, m') -> m' = m)
  /\ (forall p d e, privateKey_MarshalBinary p m = Ret ((d, e), m') ->
        m' = m /\ e = None /\ privateKey_Bytes p m = Ret (d, m)).
Proof.
  repeat split.
  - intros p t H. paths H. congruence.
  - intros p b H. paths H. congruence.
  - intros p q r H. paths H. congruence.
  - paths H. congruence.
  - paths H. congruence.
  - unfold publicKey_MarshalBinary in H.
    destruct (publicKey_Bytes p m) as [[b mb]|] eqn:HB;
      [|rewrite (bind_Panic_eq _ _ _ _ HB) in H; discriminate].
    rewrite (bind_Ret _ _ _ _ _ HB) in H. injection H as <- <- <-.
    destruct (publicKey_Bytes_inv _ _ _ _ HB) as [-> _]. reflexivity.
  - intros p t H. paths H. congruence.
  - intros p b H. paths H. congruence.
  - paths H. congruence.
  - paths H. congruence.
  - unfold privateKey_MarshalBinary in H.
    destruct (privateKey_Bytes p m) as [[b mb]|] eqn:HB;
      [|rewrite (bind_Panic_eq _ _ _ _ HB) in H; discriminate].
    rewrite (bind_Ret _ _ _ _ _ HB) in H. injection H as <- <- <-.
    assert (mb = m) as -> by (paths HB; congruence). reflexivity.
Qed.

Ltac frame :=
  repeat split; simpl; try reflexivity; try apply length_insert;
  try (intros; apply list_lookup_insert_ne; congruence).

(** The methods that write do so narrowly.  [ToPEMFile] changes no key
    struct.  [FromBytes], [UnmarshalBinary], [FromPEMFile] and [Sum256]
    on a public key change neither the file system nor any private key
    nor any public key other than the receiver; the private-key methods
    likewise change only the receiving private key. *)
Theorem writers_touch_only_their_target p m m' :
  (forall f e, publicKey_ToPEMFile p f m = Ret (e, m')
               \/ privateKey_ToPEMFile p f m = Ret (e, m') ->
     pubs m' = pubs m /\ privs m' = privs m)
  /\ (forall b e, publicKey_FromBytes p b m = Ret (e, m')
                  \/ publicKey_UnmarshalBinary p b m = Ret (e, m') ->
        only_public_written p m m')
  /\ (forall f e, publicKey_FromPEMFile p f m = Ret (e, m') ->
        only_public_written p m m')
  /\ (forall h, publicKey_Sum256 p m = Ret (h, m') -> only_public_written p m m')
  /\ (forall b e, privateKey_FromBytes p b m = Ret (e, m')
                  \/ privateKey_UnmarshalBinary p b m = Ret (e, m') ->
        only_private_written p m m')
  /\ (forall f e, privateKey_FromPEMFile p f m = Ret (e, m') ->
        only_private_written p m m').
Proof.
  unfold only_public_written, only_private_written.
  split; [|split; [|split; [|split; [|split]]]].
  - intros f e [H|H]; paths H; injection H as <- <-; subst; split; reflexivity.
  - intros b e [H|H]; paths H; injection H as <- <-; subst; frame.
  - intros f e H; paths H; injection H as <- <-; subst; frame.
  - intros h H; paths H; injection H as <- <-; subst; frame.
  - intros b e [H|H]; paths H; injection H as <- <-; subst; frame.
  - intros f e H; paths H; injection H as <- <-; subst; frame.
Qed.

(** ** Keys that were never filled *)

(** A [publicKey] struct whose key field is still nil makes [Bytes],
    [MarshalBinary], [Sum256] and [ToPEMFile] panic with a nil
    dereference, whatever its KEM, and makes [Equal] panic whether it is
    the receiver or the argument; the file system is never reached.  A
    [privateKey] struct whose key pair is nil does the same in [Bytes],
    [MarshalBinary], [PublicKey] and [ToPEMFile].  Once [FromBytes] has
    accepted some bytes, [Bytes] returns the parsed key's bytes. *)
Theorem unfilled_key_panics a a' k k' h f q m :
  pubs m !! a = Some (mkPublicKey None k h) ->
  privs m !! a' = Some (mkPrivateKey None k') ->
  (publicKey_Bytes (Some a) m = Panic NilDereference
   /\ publicKey_MarshalBinary (Some a) m = Panic NilDereference
   /\ publicKey_Sum256 (Some a) m = Panic NilDereference
   /\ publicKey_ToPEMFile (Some a) f m = Panic NilDereference
   /\ publicKey_Equal q (Some a) m = Panic NilDereference
   /\ exists v, publicKey_Equal (Some a) q m = Panic v)
  /\ (privateKey_Bytes (Some a') m = Panic NilDereference
      /\ privateKey_MarshalBinary (Some a') m = Panic NilDereference
      /\ privateKey_PublicKey (Some a') m = Panic NilDereference
      /\ privateKey_ToPEMFile (Some a') f m = Panic NilDereference)
  /\ (forall kem b pk, k = Some kem -> KEM_ParsePublicKey kem b = inl pk ->
        exists m1, publicKey_FromBytes (Some a) b m = Ret (None, m1)
                   /\ publicKey_Bytes (Some a) m1 = Ret (kem_PublicKey_Bytes pk, m1)).
Proof.
  intros Ha Ha'.
  assert (HB : publicKey_Bytes (Some a) m = Panic NilDereference).
  { unfold publicKey_Bytes. rewrite (bind_Ret _ _ _ _ _ (load_pub_Some _ _ _ Ha)).
    reflexivity. }
  assert (HB' : privateKey_Bytes (Some a') m = Panic NilDereference).
  { unfold privateKey_Bytes. rewrite (bind_Ret _ _ _ _ _ (load_priv_Some _ _ _ Ha')).
    reflexivity. }
  split; [|split].
  - split; [exact HB|].
    split; [unfold publicKey_MarshalBinary; apply bind_Panic_eq; exact HB|].
    split; [unfold publicKey_Sum256; apply bind_Panic_eq; exact HB|].
    split.
    { unfold publicKey_ToPEMFile, publicKey_KeyType.
      unfold bind at 1. unfold bind at 1. rewrite (load_pub_Some _ _ _ Ha).
      destruct k as [kem|]; [|reflexivity]. cbv [pub_KEM deref ret].
      apply bind_Panic_eq. exact HB. }
    split; [unfold publicKey_Equal; apply bind_Panic_eq; exact HB|].
    unfold publicKey_Equal.
    destruct (publicKey_Bytes q m) as [[bq mq]|v] eqn:Hq.
    + destruct (publicKey_Bytes_inv _ _ _ _ Hq) as [-> _].
      rewrite (bind_Ret _ _ _ _ _ Hq). exists NilDereference.
      apply bind_Panic_eq. exact HB.
    + exists v. apply bind_Panic_eq. exact Hq.
  - split; [exact HB'|].
    split; [unfold privateKey_MarshalBinary; apply bind_Panic_eq; exact HB'|].
    split.
    { unfold privateKey_PublicKey.
      rewrite (bind_Ret _ _ _ _ _ (load_priv_Some _ _ _ Ha')). reflexivity. }
    unfold privateKey_ToPEMFile, privateKey_KeyType.
    unfold bind at 1. unfold bind at 1. rewrite (load_priv_Some _ _ _ Ha').
    destruct k' as [kem|]; [|reflexivity]. cbv [priv_KEM deref ret].
    apply bind_Panic_eq. exact HB'.
  - intros kem b pk -> Hp. eexists. split.
    + unfold publicKey_FromBytes.
      rewrite (bind_Ret _ _ _ _ _ (load_pub_Some _ _ _ Ha)).
      cbv [pub_KEM pub_hash deref bind ret store_pub]. rewrite Hp. reflexivity.
    + eapply publicKey_Bytes_Some. simpl. apply list_lookup_insert_eq.
      apply lookup_lt_Some in Ha. exact Ha.
Qed.

(** ** Binary marshalling between keys *)

(** [UnmarshalBinary] of what [MarshalBinary] gave for another key (or
    for the same one) makes the receiver [Equal] to that key, when the
    receiver's KEM accepts the bytes and returns a key that serializes
    to them. *)
Theorem UnmarshalBinary_of_MarshalBinary a b pk ka ha o k pk' m :
  pubs m !! a = Some (mkPublicKey (Some pk) ka ha) ->
  pubs m !! b = Some o -> pub_KEM o = Some k ->
  KEM_ParsePublicKey k (kem_PublicKey_Bytes pk) = inl pk' ->
  kem_PublicKey_Bytes pk' = kem_PublicKey_Bytes pk ->
  exists data m1,
    publicKey_MarshalBinary (Some a) m = Ret ((data, None), m)
    /\ publicKey_UnmarshalBinary (Some b) data m = Ret (None, m1)
    /\ publicKey_Equal (Some b) (Some a) m1 = Ret (true, m1)
    /\ publicKey_Bytes (Some b) m1 = Ret (data, m1).
Proof.
  intros Ha Hb Hk Hp Hsame.
  pose proof (lookup_lt_Some _ _ _ Hb) as Hlt.
  exists (kem_PublicKey_Bytes pk).
  exists (mkMem (<[b := mkPublicKey (Some pk') (pub_KEM o) (pub_hash o)]> (pubs m))
                (privs m) (disk m)).
  assert (Hb1 : <[b := mkPublicKey (Some pk') (pub_KEM o) (pub_hash o)]> (pubs m) !! b
                = Some (mkPublicKey (Some pk') (pub_KEM o) (pub_hash o))).
  { apply list_lookup_insert_eq. exact Hlt. }
  split.
  { unfold publicKey_MarshalBinary.
    rewrite (bind_Ret _ _ _ _ _ (publicKey_Bytes_Some _ _ _ _ _ Ha)). reflexivity. }
  split.
  { unfold publicKey_UnmarshalBinary, publicKey_FromBytes.
    rewrite (bind_Ret _ _ _ _ _ (load_pub_Some _ _ _ Hb)). rewrite Hk.
    cbv [deref bind ret store_pub]. rewrite Hp. rewrite <- Hk. reflexivity. }
  split.
  - destruct (decide (b = a)) as [->|Hne].
    + rewrite (publicKey_Equal_Some _ _ _ _ _ _ _ _ (mkMem _ _ _) Hb1 Hb1).
      f_equal. f_equal. apply bytes_Equal_spec. reflexivity.
    + erewrite (publicKey_Equal_Some b a pk' pk).
      * f_equal. f_equal. apply bytes_Equal_spec. symmetry. exact Hsame.
      * exact Hb1.
      * simpl. rewrite list_lookup_insert_ne by exact Hne. exact Ha.
  - rewrite <- Hsame. exact (publicKey_Bytes_Some _ _ _ _ (mkMem _ _ _) Hb1).
Qed.

(** ** The type tag of issued keys *)


(** ** Key generation, once more *)

(** [GenerateKeypair], when it returns, has changed no existing key and
    not the file system; its two pointers were not allocated before; and
    [PublicKey()] called afterwards on the returned private key gives a
    key [Equal] to the returned public key, with the same [Sum256]. *)
Theorem GenerateKeypair_fresh_and_consistent s r m priv pub m1 :
  scheme_GenerateKeypair s r m = Ret ((priv, pub), m1) ->
  mem_extends m m1
  /\ (exists a b, priv = Some a /\ pub = Some b
                  /\ privs m !! a = None /\ pubs m !! b = None)
  /\ exists pub' m2 h,
       privateKey_PublicKey priv m1 = Ret (pub', m2)
       /\ publicKey_Equal pub' pub m2 = Ret (true, m2)
       /\ publicKey_Sum256 pub m2 = Ret (h, m2)
       /\ publicKey_Sum256 pub' m2 = Ret (h, m2).
Proof.
  rewrite scheme_GenerateKeypair_eq.
  destruct (seec_GenKeyPRPAES r 256) as [g|]; [|discriminate].
  destruct (scheme_KEM s) as [k|]; [|discriminate].
  destruct (KEM_GenerateKeypair k g) as [kp|]; [|discriminate].
  intros [= <- <- <-].
  set (raw := kem_PublicKey_Bytes (kem_Keypair_Public kp)).
  set (o := mkPublicKey (Some (kem_Keypair_Public kp)) (Some k) (blake2b_Sum256 raw)).
  set (n := mkPrivateKey (Some kp) (Some k)).
  split; [|split].
  - repeat split; simpl; apply prefix_app_r; reflexivity.
  - exists (length (privs m)), (length (pubs m)).
    repeat split; apply lookup_ge_None; lia.
  - assert (Hn : privs (mkMem (pubs m ++ [o])%list (privs m ++ [n])%list (disk m))
                   !! length (privs m) = Some n).
    { simpl. apply list_lookup_middle. reflexivity. }
    assert (H1 : ((pubs m ++ [o]) ++ [o])%list !! length (pubs m) = Some o).
    { apply lookup_app_l_Some, list_lookup_middle. reflexivity. }
    assert (H2 : ((pubs m ++ [o]) ++ [o])%list !! length (pubs m ++ [o])%list = Some o).
    { apply list_lookup_middle. reflexivity. }
    eexists _, _, (blake2b_Sum256 raw).
    split; [exact (privateKey_PublicKey_Some _ _ _ _ Hn)|]. simpl pubs. fold raw. fold o.
    split.
    + rewrite (publicKey_Equal_Some _ _ _ _ _ _ _ _ (mkMem _ _ _) H2 H1).
      f_equal. f_equal. apply bytes_Equal_spec. reflexivity.
    + split.
      * rewrite (publicKey_Sum256_Some _ _ _ _ (mkMem _ _ _) H1). simpl.
        fold raw. fold o. rewrite (list_insert_id _ _ _ H1). reflexivity.
      * rewrite (publicKey_Sum256_Some _ _ _ _ (mkMem _ _ _) H2). simpl.
        fold raw. fold o. rewrite (list_insert_id _ _ _ H2). reflexivity.
Qed.

End KeyLayer.

(** * Properties of the HTTP handler *)

Section HandlerProperties.
Context `{Re : Reunion}.

(** The handler writes to the response only the bytes of the reply to a
    query it read, parsed and had the server process: if the response
    writer is not as it was, the body was read and not empty, it parsed
    to a command, [ProcessQuery] answered it without error and the
    writer is what [Write] of the reply's bytes left.  The server is
    consulted only for a body that parsed: if the server is not as it
    was, it is what [ProcessQuery] on the parsed command left. *)
Theorem handler_writes_only_replies s log w req :
  let r := httpReunionServerFactory s log w req in
  (h_writer r <> w ->
     exists raw cmd reply,
       ioutil_ReadAll req = inl raw /\ raw <> []
       /\ commands_FromBytes raw = inl cmd
       /\ (Server_ProcessQuery s cmd).1 = inl reply
       /\ h_writer r = (ResponseWriter_Write w (Command_ToBytes reply)).1)
  /\ (h_server r <> s ->
        exists raw cmd,
          ioutil_ReadAll req = inl raw /\ raw <> []
          /\ commands_FromBytes raw = inl cmd
          /\ h_server r = (Server_ProcessQuery s cmd).2).
Proof.
  unfold httpReunionServerFactory.
  destruct (ioutil_ReadAll req) as [raw|err]; simpl; [|split; congruence].
  destruct raw as [|c raw]; simpl; [split; congruence|].
  destruct (commands_FromBytes (c :: raw)) as [cmd|err] eqn:Hc; simpl;
    [|split; congruence].
  destruct (Server_ProcessQuery s cmd) as [[reply|err] s'] eqn:Hp; simpl.
  - destruct (ResponseWriter_Write w (Command_ToBytes reply)) as [w' [err|]] eqn:Hw;
      simpl; split; intros _.
    + exists (c :: raw), cmd, reply. rewrite Hw, Hp. repeat split; simpl; first [reflexivity | discriminate | assumption].
    + exists (c :: raw), cmd. rewrite Hp. repeat split; simpl; first [reflexivity | discriminate | assumption].
    + exists (c :: raw), cmd, reply. rewrite Hw, Hp. repeat split; simpl; first [reflexivity | discriminate | assumption].
    + exists (c :: raw), cmd. rewrite Hp. repeat split; simpl; first [reflexivity | discriminate | assumption].
  - split; [congruence|]. intros _.
    exists (c :: raw), cmd. rewrite Hp. repeat split; simpl; first [reflexivity | discriminate | assumption].
Qed.

(** Each run of the handler adds to the log at most one error entry, and
    none exactly when the reply was sent: the body was read and not
    empty, parsed, was processed without error and [Write] returned no
    error; then the only entry added is the debug line with the size of
    the body. *)
Theorem handler_logs_error_unless_sent s log w req :
  let r := httpReunionServerFactory s log w req in
  exists new,
    h_log r = (log ++ new)%list
    /\ length (List.filter is_error new) <= 1
    /\ (List.filter is_error new = [] <->
        exists raw cmd reply s' w',
          ioutil_ReadAll req = inl raw /\ raw <> []
          /\ commands_FromBytes raw = inl cmd
          /\ Server_ProcessQuery s cmd = (inl reply, s')
          /\ ResponseWriter_Write w (Command_ToBytes reply) = (w', None)
          /\ r = mkHandled s' w'
                   (log ++ [LogDebug ("raw request size is " ++ format_d (length raw))])).
Proof.
  unfold httpReunionServerFactory.
  destruct (ioutil_ReadAll req) as [raw|err] eqn:Hr; simpl.
  2:{ eexists [_]. split; [reflexivity|]. split; [simpl; lia|].
      split; [discriminate|]. intros (? & ? & ? & ? & ? & [=] & _). }
  destruct raw as [|c raw]; simpl.
  { eexists [_; _]. split; [rewrite <- app_assoc; reflexivity|].
    split; [simpl; lia|]. split; [discriminate|].
    intros (? & ? & ? & ? & ? & [= <-] & Hne & _). congruence. }
  destruct (commands_FromBytes (c :: raw)) as [cmd|err] eqn:Hc; simpl.
  2:{ eexists [_; _]. split; [rewrite <- app_assoc; reflexivity|].
      split; [simpl; lia|]. split; [discriminate|].
      intros (? & ? & ? & ? & ? & [= <-] & _ & Hc' & _). congruence. }
  destruct (Server_ProcessQuery s cmd) as [[reply|err] s'] eqn:Hp; simpl.
  2:{ eexists [_; _]. split; [rewrite <- app_assoc; reflexivity|].
      split; [simpl; lia|]. split; [discriminate|].
      intros (? & ? & ? & ? & ? & [= <-] & _ & Hc' & Hp' & _). congruence. }
  destruct (ResponseWriter_Write w (Command_ToBytes reply)) as [w' [err|]] eqn:Hw; simpl.
  - eexists [_; _]. split; [rewrite <- app_assoc; reflexivity|].
    split; [simpl; lia|]. split; [discriminate|].
    intros (? & ? & ? & ? & ? & [= <-] & _ & Hc' & Hp' & Hw' & _). congruence.
  - eexists [_]. split; [reflexivity|]. split; [simpl; lia|].
    split; [|reflexivity]. intros _.
    exists (c :: raw), cmd, reply, s', w'. repeat split; auto; discriminate.
Qed.

End HandlerProperties.

(** * The further theorems at concrete inputs *)

Lemma FromPemFile_unreadable_or_no_block_witness :
  (scheme_PublicKeyFromPemFile Sample.scheme_a "none.pem" SampleKeys.m1
     = Ret ((None, Some (OsError "open none.pem: no such file or directory")),
            SampleKeys.m1)
   /\ scheme_PrivateKeyFromPemFile Sample.scheme_a "none.pem" SampleKeys.m1
        = Ret ((None, Some (OsError "open none.pem: no such file or directory")),
               SampleKeys.m1)
   /\ publicKey_FromPEMFile (Some 0) "none.pem" SampleKeys.m1
        = Ret (Some (OsError "open none.pem: no such file or directory"), SampleKeys.m1)
   /\ privateKey_FromPEMFile (Some 0) "none.pem" SampleKeys.m1
        = Ret (Some (OsError "open none.pem: no such file or directory"), SampleKeys.m1))
  /\ (scheme_PublicKeyFromPemFile Sample.scheme_a "junk.pem" SampleKeys.m1
        = Ret ((None, Some (Errorf "failed to decode PEM file junk.pem")), SampleKeys.m1)
      /\ scheme_PrivateKeyFromPemFile Sample.scheme_a "junk.pem" SampleKeys.m1
           = Ret ((None, Some (Errorf "failed to decode PEM file junk.pem")), SampleKeys.m1)
      /\ publicKey_FromPEMFile (Some 0) "junk.pem" SampleKeys.m1
           = Ret (Some (Errorf "failed to decode PEM file junk.pem"), SampleKeys.m1)
      /\ privateKey_FromPEMFile (Some 0) "junk.pem" SampleKeys.m1
           = Ret (Some (Errorf "failed to decode PEM file junk.pem"), SampleKeys.m1)).
Proof.
  split.
  - exact (proj1 (FromPemFile_unreadable_or_no_block Sample.scheme_a Sample.kem_a
                    "none.pem" SampleKeys.m1 0 0 _ _ _ eq_refl eq_refl eq_refl)
             _ eq_refl).
  - exact (proj2 (FromPemFile_unreadable_or_no_block Sample.scheme_a Sample.kem_a
                    "junk.pem" SampleKeys.m1 0 0 _ _ _ eq_refl eq_refl eq_refl)
             _ eq_refl eq_refl).
Defined.

Lemma FromPemFile_tag_case_insensitive_witness :
  (scheme_PublicKeyFromPemFile Sample.scheme_a "lower-pub.pem" SampleKeys.m1
     = scheme_PublicKeyFromBytes Sample.scheme_a [x05; x06] SampleKeys.m1
   /\ publicKey_FromPEMFile (Some 0) "lower-pub.pem" SampleKeys.m1
        = publicKey_FromBytes (Some 0) [x05; x06] SampleKeys.m1)
  /\ (scheme_PrivateKeyFromPemFile Sample.scheme_a "lower-priv.pem" SampleKeys.m1
        = scheme_PrivateKeyFromBytes Sample.scheme_a [x05; x06; x07; x08] SampleKeys.m1
      /\ privateKey_FromPEMFile (Some 0) "lower-priv.pem" SampleKeys.m1
           = privateKey_FromBytes (Some 0) [x05; x06; x07; x08] SampleKeys.m1).
Proof.
  split.
  - exact (proj1 (FromPemFile_tag_case_insensitive Sample.scheme_a Sample.kem_a
                    "lower-pub.pem" SampleKeys.lower_pub_pem
                    (mkBlock "kem-a public key" [x05; x06]) [] SampleKeys.m1 0 0 _ _ _
                    eq_refl eq_refl eq_refl eq_refl eq_refl) eq_refl).
  - exact (proj2 (FromPemFile_tag_case_insensitive Sample.scheme_a Sample.kem_a
                    "lower-priv.pem" SampleKeys.lower_priv_pem
                    (mkBlock "Kem-A Private Key" [x05; x06; x07; x08]) [] SampleKeys.m1
                    0 0 _ _ _ eq_refl eq_refl eq_refl eq_refl eq_refl) eq_refl).
Defined.

Lemma sample_not_all_zero b rest : b <> x00 -> ~ Forall (eq x00) (b :: rest).
Proof. intros Hb H. apply Forall_cons in H as [H _]. congruence. Qed.

Lemma publicKey_PEM_file_roundtrip_witness :
  exists m1 b m2,
    publicKey_ToPEMFile (Some 0) "out.pem" Sample.m0 = Ret (None, m1)
    /\ scheme_PublicKeyFromPemFile Sample.scheme_a "out.pem" m1 = Ret ((Some b, None), m2)
    /\ b <> 0
    /\ publicKey_Equal (Some b) (Some 0) m2 = Ret (true, m2)
    /\ publicKey_KeyType (Some b) m2 = Ret ("KEM-A PUBLIC KEY", m2).
Proof.
  refine (publicKey_PEM_file_roundtrip Sample.scheme_a Sample.kem_a 0 Sample.pk12
            zero_hash "out.pem" Sample.m0 _ [] Sample.pk12 eq_refl eq_refl _
            eq_refl eq_refl eq_refl eq_refl eq_refl).
  apply sample_not_all_zero. discriminate.
Defined.

Lemma privateKey_PEM_file_roundtrip_witness :
  exists m1 b m2,
    privateKey_ToPEMFile (Some 0) "out.pem" Sample.m0 = Ret (None, m1)
    /\ scheme_PrivateKeyFromPemFile Sample.scheme_a "out.pem" m1 = Ret ((Some b, None), m2)
    /\ b <> 0
    /\ privateKey_Bytes (Some b) m2 = Ret ([x01; x02; x03; x04], m2)
    /\ privateKey_Bytes (Some 0) m2 = Ret ([x01; x02; x03; x04], m2).
Proof.
  refine (privateKey_PEM_file_roundtrip Sample.scheme_a Sample.kem_a 0 Sample.kp1234
            [x01; x02; x03; x04] "out.pem" Sample.m0 _ [] Sample.kp1234
            eq_refl eq_refl eq_refl _ eq_refl eq_refl eq_refl eq_refl eq_refl).
  apply sample_not_all_zero. discriminate.
Defined.

Lemma privateKey_PublicKey_repeatable_witness :
  exists p1 p2 m1 m2,
    privateKey_PublicKey (Some 0) Sample.m0 = Ret (Some p1, m1)
    /\ privateKey_PublicKey (Some 0) m1 = Ret (Some p2, m2)
    /\ p1 <> p2
    /\ pubs Sample.m0 !! p1 = None /\ pubs m1 !! p2 = None
    /\ privs m2 = privs Sample.m0 /\ disk m2 = disk Sample.m0
    /\ publicKey_Bytes (Some p1) m2 = Ret ([x01; x02], m2)
    /\ publicKey_Bytes (Some p2) m2 = Ret ([x01; x02], m2)
    /\ publicKey_Equal (Some p1) (Some p2) m2 = Ret (true, m2)
    /\ publicKey_Sum256 (Some p1) m2 = Ret (Sample.digest [x01; x02], m2).
Proof.
  exact (privateKey_PublicKey_repeatable 0 Sample.kp1234 (Some Sample.kem_a)
           Sample.m0 eq_refl).
Defined.

Lemma publicKey_Equal_equivalence_witness :
  publicKey_Equal (Some 0) (Some 0) SampleKeys.m1 = Ret (true, SampleKeys.m1)
  /\ publicKey_Equal (Some 0) (Some 1) SampleKeys.m1
       = publicKey_Equal (Some 1) (Some 0) SampleKeys.m1
  /\ (publicKey_Equal (Some 0) (Some 1) SampleKeys.m1 = Ret (true, SampleKeys.m1) ->
      publicKey_Equal (Some 1) (Some 5) SampleKeys.m1 = Ret (true, SampleKeys.m1) ->
      publicKey_Equal (Some 0) (Some 5) SampleKeys.m1 = Ret (true, SampleKeys.m1)).
Proof.
  exact (publicKey_Equal_equivalence 0 1 5 Sample.pk12 Sample.pk12 Sample.pk12
           (Some Sample.kem_a) (Some Sample.kem_b) (Some Sample.kem_a)
           zero_hash zero_hash zero_hash SampleKeys.m1 eq_refl eq_refl eq_refl).
Defined.

Lemma Equal_keys_same_Sum256_witness :
  exists h m1 m2,
    publicKey_Sum256 (Some 0) Sample.m0 = Ret (h, m1)
    /\ publicKey_Sum256 (Some 1) m1 = Ret (h, m2)
    /\ length h = 32.
Proof.
  exact (Equal_keys_same_Sum256 (Some 0) (Some 1) Sample.m0 eq_refl).
Defined.

Lemma scheme_returns_key_or_error_witness :
  (public_or_error Sample.scheme_a Sample.m0
     (mkMem (pubs Sample.m0 ++ [mkPublicKey (Some Sample.pk12) (Some Sample.kem_a) zero_hash])
            (privs Sample.m0) (disk Sample.m0))
     (Some 3, None)
   /\ mem_extends Sample.m0
        (mkMem (pubs Sample.m0 ++ [mkPublicKey (Some Sample.pk12) (Some Sample.kem_a)
                                     zero_hash])
               (privs Sample.m0) (disk Sample.m0)))
  /\ (public_or_error Sample.scheme_a Sample.m0 Sample.m0
        (None, Some (err_wrong_type "RSA PRIVATE KEY" "KEM-A PUBLIC KEY"))
      /\ mem_extends Sample.m0 Sample.m0)
  /\ (private_or_error Sample.scheme_a Sample.m0 Sample.m0
        (None, Some (CorruptInputError 1))
      /\ mem_extends Sample.m0 Sample.m0)
  /\ (private_or_error Sample.scheme_a Sample.m0 Sample.m0
        (None, Some (err_wrong_type "KEM-A PUBLIC KEY" "KEM-A PRIVATE KEY"))
      /\ mem_extends Sample.m0 Sample.m0).
Proof.
  split; [|split; [|split]].
  - apply (proj1 (scheme_returns_key_or_error Sample.scheme_a Sample.m0 _ _) [x01; x02]).
    left. reflexivity.
  - apply (proj1 (proj2 (scheme_returns_key_or_error Sample.scheme_a Sample.m0 _ _))
             "rsa.pem").
    reflexivity.
  - apply (proj1 (proj2 (proj2 (scheme_returns_key_or_error Sample.scheme_a Sample.m0 _ _)))
             [x61; x21]).
    right. reflexivity.
  - apply (proj2 (proj2 (proj2 (scheme_returns_key_or_error Sample.scheme_a Sample.m0 _ _)))
             "pub.pem").
    reflexivity.
Defined.

Lemma readers_leave_memory_witness :
  (publicKey_KeyType (Some 0) Sample.m0 = Ret ("KEM-A PUBLIC KEY", Sample.m0)
   /\ publicKey_Bytes (Some 0) Sample.m0 = Ret ([x01; x02], Sample.m0)
   /\ publicKey_Equal (Some 0) (Some 1) Sample.m0 = Ret (true, Sample.m0)
   /\ publicKey_MarshalBinary (Some 0) Sample.m0 = Ret (([x01; x02], None), Sample.m0)
   /\ privateKey_KeyType (Some 0) Sample.m0 = Ret ("KEM-A PRIVATE KEY", Sample.m0)
   /\ privateKey_Bytes (Some 0) Sample.m0 = Ret ([x01; x02; x03; x04], Sample.m0)
   /\ privateKey_MarshalBinary (Some 0) Sample.m0
        = Ret (([x01; x02; x03; x04], None), Sample.m0))
  /\ Sample.m0 = Sample.m0
  /\ (Sample.m0 = Sample.m0 /\ (None : option error) = None
      /\ publicKey_Bytes (Some 0) Sample.m0 = Ret ([x01; x02], Sample.m0))
  /\ (Sample.m0 = Sample.m0 /\ (None : option error) = None
      /\ privateKey_Bytes (Some 0) Sample.m0 = Ret ([x01; x02; x03; x04], Sample.m0)).
Proof.
  pose proof (readers_leave_memory Sample.m0 Sample.m0)
    as (HK & HB & HE & HM & HK' & HB' & HM').
  split; [repeat split|]. split; [|split].
  - pose proof (HK (Some 0) _ eq_refl). pose proof (HB (Some 0) _ eq_refl).
    pose proof (HK' (Some 0) _ eq_refl). pose proof (HB' (Some 0) _ eq_refl).
    exact (HE (Some 0) (Some 1) true eq_refl).
  - exact (HM (Some 0) [x01; x02] None eq_refl).
  - exact (HM' (Some 0) [x01; x02; x03; x04] None eq_refl).
Defined.

Lemma writers_touch_only_their_target_witness :
  (pubs (mkMem (pubs Sample.m0) (privs Sample.m0)
               (("out.pem", (Sample.encode (mkBlock "KEM-A PUBLIC KEY" [x01; x02]), 384%N))
                  :: disk Sample.m0)) = pubs Sample.m0
   /\ privs (mkMem (pubs Sample.m0) (privs Sample.m0)
                   (("out.pem", (Sample.encode (mkBlock "KEM-A PUBLIC KEY" [x01; x02]),
                                 384%N)) :: disk Sample.m0)) = privs Sample.m0)
  /\ only_public_written (Some 0) Sample.m0
       (mkMem (<[0 := mkPublicKey (Some (mkKemPublicKey [x05; x06])) (Some Sample.kem_a)
                        zero_hash]> (pubs Sample.m0))
              (privs Sample.m0) (disk Sample.m0))
  /\ only_public_written (Some 0) Sample.m0 Sample.m0
  /\ only_public_written (Some 0) Sample.m0
       (mkMem (<[0 := mkPublicKey (Some Sample.pk12) (Some Sample.kem_a)
                        (Sample.digest [x01; x02])]> (pubs Sample.m0))
              (privs Sample.m0) (disk Sample.m0))
  /\ only_private_written (Some 0) Sample.m0
       (mkMem (pubs Sample.m0)
              (<[0 := mkPrivateKey (Some (Sample.keypair_of [x05; x06; x07; x08]))
                        (Some Sample.kem_a)]> (privs Sample.m0))
              (disk Sample.m0))
  /\ only_private_written (Some 0) Sample.m0 Sample.m0.
Proof.
  split; [|split; [|split; [|split; [|split]]]].
  - apply (proj1 (writers_touch_only_their_target (Some 0) Sample.m0 _) "out.pem" None).
    left. reflexivity.
  - apply (proj1 (proj2 (writers_touch_only_their_target (Some 0) Sample.m0 _))
             [x05; x06] None).
    left. reflexivity.
  - apply (proj1 (proj2 (proj2 (writers_touch_only_their_target (Some 0) Sample.m0 _)))
             "rsa.pem"
             (Some (err_wrong_type "RSA PRIVATE KEY" "KEM-A PUBLIC KEY"))).
    reflexivity.
  - apply (proj1 (proj2 (proj2 (proj2
             (writers_touch_only_their_target (Some 0) Sample.m0 _))))
             (Sample.digest [x01; x02])).
    reflexivity.
  - apply (proj1 (proj2 (proj2 (proj2 (proj2
             (writers_touch_only_their_target (Some 0) Sample.m0 _)))))
             [x05; x06; x07; x08] None).
    left. reflexivity.
  - apply (proj2 (proj2 (proj2 (proj2 (proj2
             (writers_touch_only_their_target (Some 0) Sample.m0 _)))))
             "pub.pem"
             (Some (err_wrong_type "KEM-A PUBLIC KEY" "KEM-A PRIVATE KEY"))).
    reflexivity.
Defined.

Lemma unfilled_key_panics_witness :
  (publicKey_Bytes (Some 3) SampleKeys.m1 = Panic NilDereference
   /\ publicKey_MarshalBinary (Some 3) SampleKeys.m1 = Panic NilDereference
   /\ publicKey_Sum256 (Some 3) SampleKeys.m1 = Panic NilDereference
   /\ publicKey_ToPEMFile (Some 3) "out.pem" SampleKeys.m1 = Panic NilDereference
   /\ publicKey_Equal (Some 0) (Some 3) SampleKeys.m1 = Panic NilDereference
   /\ exists v, publicKey_Equal (Some 3) (Some 0) SampleKeys.m1 = Panic v)
  /\ (privateKey_Bytes (Some 3) SampleKeys.m1 = Panic NilDereference
      /\ privateKey_MarshalBinary (Some 3) SampleKeys.m1 = Panic NilDereference
      /\ privateKey_PublicKey (Some 3) SampleKeys.m1 = Panic NilDereference
      /\ privateKey_ToPEMFile (Some 3) "out.pem" SampleKeys.m1 = Panic NilDereference)
  /\ (exists m1, publicKey_FromBytes (Some 3) [x05; x06] SampleKeys.m1 = Ret (None, m1)
                 /\ publicKey_Bytes (Some 3) m1 = Ret ([x05; x06], m1))
  /\ publicKey_ToPEMFile (Some 4) "out.pem" SampleKeys.m1 = Panic NilDereference.
Proof.
  destruct (unfilled_key_panics 3 3 (Some Sample.kem_a) (Some Sample.kem_a) zero_hash
              "out.pem" (Some 0) SampleKeys.m1 eq_refl eq_refl) as (Hpub & Hpriv & Hfill).
  split; [exact Hpub|]. split; [exact Hpriv|]. split.
  - exact (Hfill Sample.kem_a [x05; x06] (mkKemPublicKey [x05; x06]) eq_refl eq_refl).
  - exact (proj1 (proj2 (proj2 (proj2 (proj1
             (unfilled_key_panics 4 3 None (Some Sample.kem_a) zero_hash
                "out.pem" None SampleKeys.m1 eq_refl eq_refl)))))).
Defined.

Lemma UnmarshalBinary_of_MarshalBinary_witness :
  exists data m1,
    publicKey_MarshalBinary (Some 0) SampleKeys.m1 = Ret ((data, None), SampleKeys.m1)
    /\ publicKey_UnmarshalBinary (Some 3) data SampleKeys.m1 = Ret (None, m1)
    /\ publicKey_Equal (Some 3) (Some 0) m1 = Ret (true, m1)
    /\ publicKey_Bytes (Some 3) m1 = Ret (data, m1).
Proof.
  exact (UnmarshalBinary_of_MarshalBinary 0 3 Sample.pk12 (Some Sample.kem_a) zero_hash
           _ Sample.kem_a Sample.pk12 SampleKeys.m1
           eq_refl eq_refl eq_refl eq_refl eq_refl).
Defined.


Lemma GenerateKeypair_fresh_and_consistent_witness :
  exists m1,
    scheme_GenerateKeypair Sample.scheme_a [x01; x02; x03; x04] Sample.m0
      = Ret ((Some 3, Some 3), m1)
    /\ mem_extends Sample.m0 m1
    /\ (exists a b, Some 3 = Some a /\ Some 3 = Some b
                    /\ privs Sample.m0 !! a = None /\ pubs Sample.m0 !! b = None)
    /\ exists pub' m2 h,
         privateKey_PublicKey (Some 3) m1 = Ret (pub', m2)
         /\ publicKey_Equal pub' (Some 3) m2 = Ret (true, m2)
         /\ publicKey_Sum256 (Some 3) m2 = Ret (h, m2)
         /\ publicKey_Sum256 pub' m2 = Ret (h, m2).
Proof.
  eexists. split; [reflexivity|].
  exact (GenerateKeypair_fresh_and_consistent Sample.scheme_a [x01; x02; x03; x04]
           Sample.m0 (Some 3) (Some 3) _ eq_refl).
Defined.

Lemma handler_writes_only_replies_witness :
  (exists raw cmd reply,
     SampleHttp.read_all (Some [x01; x02]) = inl raw /\ raw <> []
     /\ SampleHttp.from_bytes raw = inl cmd
     /\ (SampleHttp.process 7 cmd).1 = inl reply
     /\ h_writer (httpReunionServerFactory (Re := SampleHttp.reunion) 7 [] [] (Some [x01; x02]))
          = (SampleHttp.write [] reply).1)
  /\ (exists raw cmd,
        SampleHttp.read_all (Some [x01; x02; x03; x04]) = inl raw /\ raw <> []
        /\ SampleHttp.from_bytes raw = inl cmd
        /\ h_server (httpReunionServerFactory (Re := SampleHttp.reunion) 7 [] [] (Some [x01; x02; x03; x04]))
             = (SampleHttp.process 7 cmd).2)
  /\ httpReunionServerFactory (Re := SampleHttp.reunion) 7 [] [] (Some [x01; x02])
       = mkHandled (Re := SampleHttp.reunion) 8 [[x02; x01]] [LogDebug "raw request size is 2"]
  /\ httpReunionServerFactory (Re := SampleHttp.reunion) 7 [] [] (Some [])
       = mkHandled (Re := SampleHttp.reunion) 7 []
           [LogDebug "raw request size is 0";
            LogError "error read zero sized request body from client"].
Proof.
  split; [|split; [|split; reflexivity]].
  - apply (proj1 (handler_writes_only_replies (Re := SampleHttp.reunion) 7 [] [] (Some [x01; x02]))).
    discriminate.
  - apply (proj2 (handler_writes_only_replies (Re := SampleHttp.reunion) 7 [] [] (Some [x01; x02; x03; x04]))).
    discriminate.
Defined.

Lemma handler_logs_error_unless_sent_witness :
  exists new,
    h_log (httpReunionServerFactory (Re := SampleHttp.reunion) 7 [] [[x09]] (Some [x01; x02])) = new
    /\ length (List.filter is_error new) <= 1
    /\ (List.filter is_error new = [] <->
        exists raw cmd reply s' w',
          SampleHttp.read_all (Some [x01; x02]) = inl raw /\ raw <> []
          /\ SampleHttp.from_bytes raw = inl cmd
          /\ SampleHttp.process 7 cmd = (inl reply, s')
          /\ SampleHttp.write [[x09]] reply = (w', None)
          /\ httpReunionServerFactory (Re := SampleHttp.reunion) 7 [] [[x09]] (Some [x01; x02])
             = mkHandled (Re := SampleHttp.reunion) s' w'
                 ([] ++ [LogDebug ("raw request size is " ++ format_d (length raw))])).
Proof.
  exact (handler_logs_error_unless_sent (Re := SampleHttp.reunion) 7 [] [[x09]] (Some [x01; x02])).
Defined.
